(** * Time tracker: session state machine and aggregation engine

    A shallow embedding of [src/app.py]: the workbook of three sheets
    (Log, Projects, Active), the handlers that start and stop the timer,
    the taxonomy index, the log normaliser, the daily summary and the
    duration formatter, the two POST routes, the other buckets of the
    summary and the frame of recent entries, followed by the properties
    proved about them.

    Conventions of the embedding.
    - A Python [str] is the [string] of its UTF-8 bytes: equality is equality
      of bytes and the order of [sorted] is the order of code points.
      [str.strip] and [str.lower] follow the Unicode tables of the runtime
      and are parameters of the development, known through the properties
      listed in class [Library]; the ASCII tables are written out in module
      [PyStr] and agree with them on ASCII text.
    - A Python [float] that is finite is the rational number it stands for
      ([Q]).  The two float expressions of the program, line 151 and line
      366, multiply or divide and then round: their values depend on the
      rounding of the float operation and are parameters too, with the
      properties the runtime gives them.  [py_round] and [round2] compute
      them in exact arithmetic, for the instance the examples run on.
      A column sum is written [qsum], the numbers added in row order; no
      property below regroups a sum.
    - A timestamp is a number of nanoseconds since the epoch in the local,
      zone-less calendar ([datetime.now()] and [pd.Timestamp] are both naive
      here); a calendar date is a number of days since the epoch.
    - A sheet is the list of its rows, each row a record of the columns the
      sheet is created with ([LOG_COLUMNS], [PROJECT_COLUMNS],
      [ACTIVE_COLUMNS]); a cell holds whatever pandas read from the file.
    - What pandas does with the text of a cell (parsing a date or a number,
      printing a value) is a parameter as well.  A column is coerced cell by
      cell.
    - A handler takes the workbook [read_workbook] returned, the clock
      reading and the form fields, and returns the message it flashes and
      the workbook it hands to [write_workbook], if any.  The file format is
      the store's business: what the next request reads is not assumed to
      be cell for cell what was written, and every property of a handler
      holds for whatever workbook it reads. *)

From Stdlib Require Import ZArith QArith Qround Qabs List String Ascii Bool Lia Lqa.
From Stdlib Require Import Sorted Permutation DecimalString.
Import ListNotations.

Local Open Scope string_scope.
Local Open Scope Z_scope.

(** ** Sorting *)

(** A stable insertion sort: [sorted], [sort_index] and the key order of
    [groupby] all come down to it.  On a total order every sort returns the
    same list. *)
Fixpoint insert_sorted {A : Type} (leb : A -> A -> bool) (x : A) (l : list A)
    : list A :=
  match l with
  | [] => [x]
  | y :: l' => if leb x y then x :: l else y :: insert_sorted leb x l'
  end.

Definition sort_with {A : Type} (leb : A -> A -> bool) (l : list A) : list A :=
  fold_right (insert_sorted leb) [] l.

(** ** Python strings *)

Module PyStr.

(** Text of ASCII characters only. *)
Fixpoint is_ascii (s : string) : bool :=
  match s with
  | EmptyString => true
  | String c s' => (N_of_ascii c <? 128)%N && is_ascii s'
  end.

(** [str.isspace] on one ASCII character: TAB, LF, VT, FF, CR, the four
    separators FS, GS, RS, US and the space. *)
Definition is_space (c : ascii) : bool :=
  let n := N_of_ascii c in
  ((9 <=? n) && (n <=? 13) || (28 <=? n) && (n <=? 32))%N.

Fixpoint lstrip (s : string) : string :=
  match s with
  | EmptyString => EmptyString
  | String c s' => if is_space c then lstrip s' else s
  end.

Fixpoint rstrip (s : string) : string :=
  match s with
  | EmptyString => EmptyString
  | String c s' =>
      match rstrip s' with
      | EmptyString => if is_space c then EmptyString else String c EmptyString
      | r => String c r
      end
  end.

(** [str.strip()] on ASCII text *)
Definition ascii_strip (s : string) : string := rstrip (lstrip s).

Definition lower_char (c : ascii) : ascii :=
  let n := N_of_ascii c in
  if ((65 <=? n) && (n <=? 90))%N then ascii_of_N (n + 32) else c.

(** A string that does not start with white space. *)
Definition starts_clean (s : string) : Prop :=
  match s with
  | EmptyString => True
  | String c _ => is_space c = false
  end.

(** [str.lower()] on ASCII text *)
Fixpoint ascii_lower (s : string) : string :=
  match s with
  | EmptyString => EmptyString
  | String c s' => String (lower_char c) (ascii_lower s')
  end.

(** Truth value of a string: [if s:] *)
Definition truthy (s : string) : bool :=
  match s with EmptyString => false | _ => true end.

(** [str(n)] and the format [{n}] for an [int] *)
Definition of_int (n : Z) : string := NilZero.string_of_int (Z.to_int n).

(** The format [{n:02d}]: zero-padded to a minimum width of two, the sign
    counting toward the width. *)
Definition of_int_02d (n : Z) : string :=
  if (0 <=? n) && (n <? 10) then "0" ++ of_int n else of_int n.

(** [sorted(xs)] on strings: ascending by code point. *)
Definition sorted (l : list string) : list string := sort_with String.leb l.

(** [set(xs)] as a duplicate-free list (its iteration order is never
    observed: every use sorts it). *)
Definition set_of (l : list string) : list string := nodup string_dec l.

End PyStr.

(** ** Numbers *)

(** [round(x)] of a float that stands for [x]: to the nearest integer, ties
    to the even one. *)
Definition py_round (x : Q) : Z :=
  let f := Qfloor x in
  match Qcompare (x - inject_Z f) (1 # 2) with
  | Lt => f
  | Gt => f + 1
  | Eq => if Z.even f then f else f + 1
  end.

(** [round(x, 2)] in exact arithmetic. *)
Definition round2 (x : Q) : Q := Qmake (py_round (x * (100 # 1))) 100.

Fixpoint qsum (l : list Q) : Q :=
  match l with
  | [] => 0%Q
  | x :: l' => (x + qsum l')%Q
  end.

(** ** Duration formatting *)

(** [format_duration], lines 152-158: the rendering of a number of whole
    seconds.  [if hours:] and [if mins:] test for a non-zero value. *)
Definition render_seconds (total_seconds : Z) : string :=
  let hours := total_seconds / 3600 in
  let remainder := total_seconds mod 3600 in
  let mins := remainder / 60 in
  let secs := remainder mod 60 in
  if negb (hours =? 0) then
    PyStr.of_int_02d hours ++ "h " ++ PyStr.of_int_02d mins ++ "m"
  else if negb (mins =? 0) then
    PyStr.of_int mins ++ "m " ++ PyStr.of_int_02d secs ++ "s"
  else
    PyStr.of_int secs ++ "s".

(** The rendering as the specification words it: the hours form when
    [hours > 0], else the minutes form when [minutes > 0], else seconds. *)
Definition render_seconds_spec (total_seconds : Z) : string :=
  let hours := total_seconds / 3600 in
  let mins := (total_seconds mod 3600) / 60 in
  let secs := (total_seconds mod 3600) mod 60 in
  if 0 <? hours then
    PyStr.of_int_02d hours ++ "h " ++ PyStr.of_int_02d mins ++ "m"
  else if 0 <? mins then
    PyStr.of_int mins ++ "m " ++ PyStr.of_int_02d secs ++ "s"
  else
    PyStr.of_int secs ++ "s".

(** ** Cells, timestamps and the pandas coercions *)

(** Nanoseconds since the epoch, local and zone-less. *)
Definition Timestamp := Z.

Definition ns_per_second : Z := 1000000000.
Definition ns_per_day : Z := 86400 * ns_per_second.

(** [ts.date()]: the calendar day, as days since the epoch. *)
Definition date_of (t : Timestamp) : Z := t / ns_per_day.

(** Midnight of a calendar day: what [pd.to_datetime] makes of a [date]. *)
Definition midnight (d : Z) : Timestamp := d * ns_per_day.

(** The minutes from [start_dt] to [end_dt], exactly. *)
Definition minutes_between (start_dt end_dt : Timestamp) : Q :=
  (inject_Z (end_dt - start_dt) / inject_Z ns_per_second / (60 # 1))%Q.

(** What a cell of a DataFrame holds: a missing value (NaN, NaT, None), a
    text, a number, a [datetime.date] or a timestamp. *)
Inductive Cell : Type :=
  | NA
  | Str (s : string)
  | Num (q : Q)
  | Date (d : Z)
  | Time (t : Timestamp).

(** The behaviour the program relies on but does not define: how pandas
    reads the text or the number in a cell as a date or a number and how
    values are printed, the text methods of the runtime, and the two float
    expressions of the program; then what is known of them. *)
Class Library : Type := {
  (** [pd.to_datetime(text, errors="coerce")]; [None] is NaT *)
  parse_datetime : string -> option Timestamp;
  (** [pd.to_datetime(number, errors="coerce")] *)
  datetime_of_number : Q -> option Timestamp;
  (** [pd.to_numeric(text, errors="coerce")]; [None] is NaN *)
  parse_number : string -> option Q;
  (** [pd.to_numeric] of a date or a timestamp object *)
  number_of_datetime : Timestamp -> option Q;
  (** [str(x)] of a number, a date, a timestamp *)
  str_of_number : Q -> string;
  str_of_date : Z -> string;
  str_of_datetime : Timestamp -> string;
  (** [ts.strftime(format)] and [ts.isoformat()] *)
  strftime : string -> Timestamp -> string;
  isoformat : Timestamp -> string;
  (** [s.strip()] and [column.str.strip()] on one text *)
  strip : string -> string;
  (** [s.lower()] and [column.str.lower()] on one text *)
  lower : string -> string;
  (** [int(round(minutes * 60))], line 151; [None] when the product is not
      finite and [round] raises *)
  whole_seconds : Q -> option Z;
  (** [round((end_dt - start_dt).total_seconds() / 60, 2)], line 366, as a
      function of [start_dt] and [end_dt] *)
  rounded_minutes : Timestamp -> Timestamp -> Q;

  (** Stripping twice is stripping once. *)
  strip_idempotent : forall s, strip (strip s) = strip s;
  (** On ASCII text the white space is the ASCII white space and the cased
      letters are A to Z. *)
  strip_ascii :
    forall s, PyStr.is_ascii s = true -> strip s = PyStr.ascii_strip s;
  lower_ascii :
    forall s, PyStr.is_ascii s = true -> lower s = PyStr.ascii_lower s;
  (** A duration of a whole number of seconds comes to that number: the
      product is off by less than the rounding takes back (the bound keeps
      it so). *)
  whole_seconds_exact :
    forall (minutes : Q) (n : Z),
      (minutes * (60 # 1) == inject_Z n)%Q -> Z.abs n <= 2 ^ 31 ->
      whole_seconds minutes = Some n;
  (** The whole seconds are within half a second of the duration, up to
      the rounding of the product (below a millionth of a second in the
      range of the bound). *)
  whole_seconds_near :
    forall (minutes : Q) (n : Z),
      whole_seconds minutes = Some n -> Z.abs n <= 2 ^ 31 ->
      (Qabs (inject_Z n - minutes * (60 # 1)) <= 500001 # 1000000)%Q;
  (** Multiplying by 60 and rounding keep the sign. *)
  whole_seconds_sign :
    forall (minutes : Q) (n : Z),
      whole_seconds minutes = Some n ->
      ((0 <= minutes)%Q -> 0 <= n) /\ ((minutes <= 0)%Q -> n <= 0);
  (** The rounded minutes are a whole number of hundredths, as nearly as a
      float holds one. *)
  rounded_minutes_hundredths :
    forall start_dt end_dt : Timestamp,
      exists hundredths : Z,
        (Qabs (rounded_minutes start_dt end_dt - (hundredths # 100))
         <= 1 # 1000000)%Q;
  (** The rounded minutes are within half a hundredth of the elapsed
      minutes, up to the rounding of the float operations (far below the
      margin of a hundred-thousandth left here for it), and have their
      sign. *)
  rounded_minutes_near :
    forall start_dt end_dt : Timestamp,
      (Qabs (rounded_minutes start_dt end_dt - minutes_between start_dt end_dt)
       <= 501 # 100000)%Q;
  rounded_minutes_sign :
    forall start_dt end_dt : Timestamp,
      (start_dt <= end_dt -> (0 <= rounded_minutes start_dt end_dt)%Q) /\
      (end_dt <= start_dt -> (rounded_minutes start_dt end_dt <= 0)%Q)
}.

(** ** The workbook *)

(** A row of the Log sheet ([LOG_COLUMNS]). *)
Record LogRow : Type := mkLog {
  log_Date : Cell;
  log_Project : Cell;
  log_Activity : Cell;
  log_Start : Cell;
  log_End : Cell;
  log_DurationMinutes : Cell;
  log_Notes : Cell
}.

(** A row of the Projects sheet ([PROJECT_COLUMNS]). *)
Record ProjectRow : Type := mkProject {
  prj_Project : Cell;
  prj_Activity : Cell
}.

(** A row of the Active sheet ([ACTIVE_COLUMNS]). *)
Record ActiveRow : Type := mkActive {
  act_Project : Cell;
  act_Activity : Cell;
  act_Notes : Cell;
  act_Start : Cell
}.

(** The three sheets as [read_workbook] returns them. *)
Record Workbook : Type := mkWorkbook {
  Log : list LogRow;
  Projects : list ProjectRow;
  Active : list ActiveRow
}.

(** [DataFrame.empty] for a sheet that has its columns: no row. *)
Definition empty {A : Type} (df : list A) : bool :=
  match df with [] => true | _ => false end.

(** The two states of the session machine: a timer is running when the
    Active sheet has a row. *)
Definition Running (wb : Workbook) : Prop := empty (Active wb) = false.
Definition Idle (wb : Workbook) : Prop := empty (Active wb) = true.

(** What one request does to the store: nothing, or one [write_workbook]
    with the workbook it saves. *)
Definition StoreWrite := option Workbook.

(** The workbook in the store after a request that found [wb] there. *)
Definition stored (wb : Workbook) (written : StoreWrite) : Workbook :=
  match written with
  | Some wb' => wb'
  | None => wb
  end.

(** [ensure_workbook], lines 28-38: the workbook a first use creates. *)
Definition new_workbook : Workbook := mkWorkbook [] [] [].

Section Engine.

Context {library : Library}.

(** [pd.to_datetime(value, errors="coerce")]; [None] stands for NaT. *)
Definition to_datetime (c : Cell) : option Timestamp :=
  match c with
  | NA => None
  | Str s => parse_datetime s
  | Num q => datetime_of_number q
  | Date d => Some (midnight d)
  | Time t => Some t
  end.

(** The cell a datetime column holds after the coercion. *)
Definition datetime_cell (c : Cell) : Cell :=
  match to_datetime c with
  | Some t => Time t
  | None => NA
  end.

(** [pd.to_datetime(column, errors="coerce").dt.date] *)
Definition date_cell (c : Cell) : Cell :=
  match to_datetime c with
  | Some t => Date (date_of t)
  | None => NA
  end.

(** [pd.to_numeric(value, errors="coerce")]; [None] stands for NaN. *)
Definition to_numeric (c : Cell) : option Q :=
  match c with
  | NA => None
  | Str s => parse_number s
  | Num q => Some q
  | Date d => number_of_datetime (midnight d)
  | Time t => number_of_datetime t
  end.

(** [pd.to_numeric(column, errors="coerce").fillna(0)] on one cell *)
Definition numeric_or_zero (c : Cell) : Q :=
  match to_numeric c with
  | Some q => q
  | None => 0%Q
  end.

(** [column.astype(str)] on one cell: a missing value prints as [nan]. *)
Definition astype_str (c : Cell) : string :=
  match c with
  | NA => "nan"
  | Str s => s
  | Num q => str_of_number q
  | Date d => str_of_date d
  | Time t => str_of_datetime t
  end.

(** [frame.fillna("")] on one cell *)
Definition fillna_empty (c : Cell) : Cell :=
  match c with NA => Str "" | _ => c end.

(** [_safe_string], lines 120-125 *)
Definition _safe_string (value : Cell) : string :=
  match value with
  | Str s => s
  | NA => ""
  | _ => astype_str value
  end.

(** The Log sheet as [write_workbook] saves it (lines 61-69): Date, Start
    and End coerced to datetimes, Date cut to its calendar date. *)
Definition log_row_to_write (r : LogRow) : LogRow :=
  mkLog (date_cell (log_Date r)) (log_Project r) (log_Activity r)
        (datetime_cell (log_Start r)) (datetime_cell (log_End r))
        (log_DurationMinutes r) (log_Notes r).

(** The Active sheet as [write_workbook] saves it (lines 71-79). *)
Definition active_row_to_write (r : ActiveRow) : ActiveRow :=
  mkActive (act_Project r) (act_Activity r) (act_Notes r)
           (datetime_cell (act_Start r)).

(** [write_workbook], lines 54-83: the workbook the next [read_workbook]
    finds.  The file format itself is the store's business. *)
Definition write_workbook (log_df : list LogRow) (projects_df : list ProjectRow)
    (active_df : list ActiveRow) : Workbook :=
  let log_to_write :=
    if negb (empty log_df) then map log_row_to_write log_df else log_df in
  let active_to_write :=
    if negb (empty active_df) then map active_row_to_write active_df
    else active_df in
  mkWorkbook log_to_write projects_df active_to_write.

(** ** Log normaliser *)

Definition normalize_log_row (r : LogRow) : LogRow :=
  mkLog (date_cell (log_Date r)) (log_Project r) (log_Activity r)
        (datetime_cell (log_Start r)) (datetime_cell (log_End r))
        (Num (numeric_or_zero (log_DurationMinutes r))) (log_Notes r).

(** [normalize_log_dataframe], lines 86-101.  The sheet has its four
    coerced columns, so the column tests hold and the branch that fills a
    missing DurationMinutes column with 0 is not taken; a column of empty
    cells is normalised to the same zeros. *)
Definition normalize_log_dataframe (log_df : list LogRow) : list LogRow :=
  if empty log_df then [] else map normalize_log_row log_df.

(** ** Taxonomy index *)

(** Lines 107-109: missing values filled with the empty text, both columns
    printed and stripped. *)
Definition cleaned_project (r : ProjectRow) : string * string :=
  (strip (astype_str (fillna_empty (prj_Project r))),
   strip (astype_str (fillna_empty (prj_Activity r)))).

(** The group of one key of [cleaned.groupby("Project")]: the Activity
    column of the rows of that project, in sheet order. *)
Definition group_activities (cleaned : list (string * string)) (project : string)
    : list string :=
  map snd (filter (fun r => String.eqb (fst r) project) cleaned).

(** The loop of [build_project_map], lines 110-116, over the group keys:
    the items it inserts, in insertion order. *)
Definition project_items (cleaned : list (string * string)) (keys : list string)
    : list (string * list string) :=
  flat_map
    (fun project =>
       let activities :=
         PyStr.sorted
           (PyStr.set_of
              (filter PyStr.truthy (group_activities cleaned project))) in
       if PyStr.truthy project then [(project, activities)] else [])
    keys.

(** [build_project_map], lines 104-117.  The dict is the list of its items
    in insertion order; [groupby] yields the distinct keys in ascending
    order. *)
Definition build_project_map (projects_df : list ProjectRow)
    : list (string * list string) :=
  if empty projects_df then [] else
  let cleaned := map cleaned_project projects_df in
  project_items cleaned (PyStr.sorted (PyStr.set_of (map fst cleaned))).

(** [project_map.get(key)] *)
Fixpoint dict_get (d : list (string * list string)) (key : string)
    : option (list string) :=
  match d with
  | [] => None
  | (k, v) :: d' => if String.eqb k key then Some v else dict_get d' key
  end.

(** [x in xs] for a list of strings *)
Definition mem (x : string) (xs : list string) : bool :=
  existsb (String.eqb x) xs.

(** ** Messages *)

(** What a handler flashes before it redirects: the message and its
    category. *)
Record Flash : Type := mkFlash { message : string; category : string }.

Definition AlreadyRunning : Flash :=
  mkFlash "A timer is already running. Stop it before starting a new one." "error".
Definition NoActiveSession : Flash :=
  mkFlash "No running timer to stop." "error".
Definition CorruptSession : Flash :=
  mkFlash "The active timer has an invalid start time and was cleared." "error".
Definition MissingProject : Flash :=
  mkFlash "Please choose a project before starting the timer." "error".
Definition MissingActivity : Flash :=
  mkFlash "Please choose an activity before starting the timer." "error".
Definition UndefinedPair : Flash :=
  mkFlash "The selected project and activity are not defined." "error".
Definition SessionSaved : Flash :=
  mkFlash "Session saved to the time log." "success".
Definition TimerStarted (project activity : string) : Flash :=
  mkFlash ("Timer started for " ++ activity ++ " in " ++ project ++ ".") "success".

Definition NamesRequired : string :=
  "Project and activity names are both required.".
Definition DuplicateDefinition : string :=
  "This activity is already defined for the project.".

(** ** Adding a definition *)

(** [add_project_activity], lines 128-147: the outcome it returns and what
    it writes. *)
Definition add_project_activity (wb : Workbook) (project activity : string)
    : (bool * string) * StoreWrite :=
  let project_name := strip project in
  let activity_name := strip activity in
  if negb (PyStr.truthy project_name) || negb (PyStr.truthy activity_name) then
    ((false, NamesRequired), None)
  else
    let projects_df := Projects wb in
    let existing :=
      filter (fun r => String.eqb (lower (astype_str (prj_Project r)))
                                  (lower project_name)) projects_df in
    let match_ :=
      filter (fun r => String.eqb (lower (astype_str (prj_Activity r)))
                                  (lower activity_name)) existing in
    if negb (empty projects_df) && negb (empty existing) && negb (empty match_)
    then ((false, DuplicateDefinition), None)
    else
      let new_row := mkProject (Str project_name) (Str activity_name) in
      let updated_projects := (projects_df ++ [new_row])%list in
      ((true, "Added '" ++ activity_name ++ "' to " ++ project_name ++ "."),
       Some (write_workbook (Log wb) updated_projects (Active wb))).

(** ** Session state machine *)

(** [handle_start], lines 319-350.  The workbook read, the clock reading
    and the form fields are the arguments; the result is the flashed
    message and what is written. *)
Definition handle_start (wb : Workbook) (now : Timestamp)
    (form_project form_activity form_notes : string) : Flash * StoreWrite :=
  if negb (empty (Active wb)) then (AlreadyRunning, None) else
  let project := strip form_project in
  let activity := strip form_activity in
  let notes := strip form_notes in
  if negb (PyStr.truthy project) then (MissingProject, None) else
  if negb (PyStr.truthy activity) then (MissingActivity, None) else
  let project_map := build_project_map (Projects wb) in
  match dict_get project_map project with
  | None => (UndefinedPair, None)
  | Some activities =>
      if negb (mem activity activities) then (UndefinedPair, None) else
      let start_time := now in
      let active_entry_df :=
        [mkActive (Str project) (Str activity) (Str notes) (Time start_time)] in
      (TimerStarted project activity,
       Some (write_workbook (Log wb) (Projects wb) active_entry_df))
  end.

(** [handle_stop], lines 353-379 *)
Definition handle_stop (wb : Workbook) (now : Timestamp) (form_notes : string)
    : Flash * StoreWrite :=
  match Active wb with
  | [] => (NoActiveSession, None)
  | active_entry :: _ =>
      let notes := strip form_notes in
      match to_datetime (act_Start active_entry) with
      | None =>
          (CorruptSession, Some (write_workbook (Log wb) (Projects wb) []))
      | Some start_dt =>
          let end_dt := now in
          let duration_minutes := rounded_minutes start_dt end_dt in
          let entry :=
            mkLog (Date (date_of start_dt))
                  (act_Project active_entry)
                  (act_Activity active_entry)
                  (Time start_dt)
                  (Time end_dt)
                  (Num duration_minutes)
                  (if PyStr.truthy notes then Str notes
                   else act_Notes active_entry) in
          let updated_log := (Log wb ++ [entry])%list in
          (SessionSaved, Some (write_workbook updated_log (Projects wb) []))
      end
  end.

(** ** Duration formatting *)

(** [format_duration], lines 150-158; [None] when line 151 raises. *)
Definition format_duration (minutes : Q) : option string :=
  match whole_seconds minutes with
  | Some total_seconds => Some (render_seconds total_seconds)
  | None => None
  end.

(** The same with the rendering as the specification words it. *)
Definition format_duration_spec (minutes : Q) : option string :=
  match whole_seconds minutes with
  | Some total_seconds => Some (render_seconds_spec total_seconds)
  | None => None
  end.

(** A series as [build_summary] lists it, lines 187-234: the label of each
    bucket with its formatted duration; [None] when a duration does not
    format. *)
Fixpoint format_series {K : Type} (label : K -> string) (series : list (K * Q))
    : option (list (string * string)) :=
  match series with
  | [] => Some []
  | bucket :: rest =>
      match format_duration (snd bucket), format_series label rest with
      | Some duration, Some items => Some ((label (fst bucket), duration) :: items)
      | _, _ => None
      end
  end.

(** ** Aggregation: the daily buckets *)

(** Lines 181-185: the rows that have a Start, each with its DateOnly key
    and its numeric DurationMinutes. *)
Definition dated_minutes (log_df : list LogRow) : list (Z * Q) :=
  flat_map
    (fun r =>
       match to_datetime (log_Start r) with
       | Some t => [(date_of t, numeric_or_zero (log_DurationMinutes r))]
       | None => []
       end)
    log_df.

(** [df.groupby(key)[value].sum()]: one bucket per distinct key, keys
    ascending, each the sum of the values of its rows. *)
Definition groupby_sum (rows : list (Z * Q)) : list (Z * Q) :=
  map (fun k => (k, qsum (map snd (filter (fun r => fst r =? k) rows))))
      (sort_with Z.leb (nodup Z.eq_dec (map fst rows))).

(** [.sort_index(ascending=False)] *)
Definition sort_index_descending (series : list (Z * Q)) : list (Z * Q) :=
  sort_with (fun a b => fst b <=? fst a) series.

(** [daily_series], line 186: minutes per calendar day of Start, latest day
    first, before any formatting. *)
Definition daily_series (log_df : list LogRow) : list (Z * Q) :=
  if empty log_df then [] else
  sort_index_descending (groupby_sum (dated_minutes log_df)).

(** A row whose Start reads as a timestamp. *)
Definition has_start (r : LogRow) : bool :=
  match to_datetime (log_Start r) with Some _ => true | None => false end.

(** The rows of the bucket [k] of a series keyed by [key]: the rows whose
    Start reads as a timestamp of that key, in sheet order. *)
Definition bucket_rows (key : Timestamp -> Z) (k : Z) (log_df : list LogRow)
    : list LogRow :=
  filter (fun r => match to_datetime (log_Start r) with
                   | Some t => key t =? k
                   | None => false
                   end)
         log_df.



(** The ["daily"] entry of [build_summary], line 187. *)
Definition build_summary_daily (log_df : list LogRow)
    : option (list (string * string)) :=
  format_series (fun d => strftime "%b %d, %Y" (midnight d)) (daily_series log_df).

(** ** The running timer as displayed *)

(** [build_active_entry], lines 272-286: the dict as the list of its items. *)
Definition build_active_entry (active_df : list ActiveRow)
    : list (string * string) :=
  match active_df with
  | [] => []
  | row :: _ =>
      match to_datetime (act_Start row) with
      | None => []
      | Some start_dt =>
          [("project", _safe_string (act_Project row));
           ("activity", _safe_string (act_Activity row));
           ("notes", _safe_string (act_Notes row));
           ("start_display", strftime "%b %d, %Y %I:%M %p" start_dt);
           ("start_iso", isoformat start_dt)]
      end
  end.

End Engine.

(** ** Calendar *)

(** The civil date (year, month, day) of a day number, in the proleptic
    Gregorian calendar of [datetime]. *)
Definition civil_from_days (d : Z) : Z * Z * Z :=
  let z := d + 719468 in
  let era := z / 146097 in
  let doe := z - era * 146097 in
  let yoe := (doe - doe / 1460 + doe / 36524 - doe / 146096) / 365 in
  let y := yoe + era * 400 in
  let doy := doe - (365 * yoe + yoe / 4 - yoe / 100) in
  let mp := (5 * doy + 2) / 153 in
  let day := doy - (153 * mp + 2) / 5 + 1 in
  let month := if mp <? 10 then mp + 3 else mp - 9 in
  (if month <=? 2 then y + 1 else y, month, day).

(** The day number of a civil date. *)
Definition days_from_civil (y m d : Z) : Z :=
  let y' := if m <=? 2 then y - 1 else y in
  let era := y' / 400 in
  let yoe := y' - era * 400 in
  let mp := if 2 <? m then m - 3 else m + 9 in
  let doy := (153 * mp + 2) / 5 + d - 1 in
  let doe := yoe * 365 + yoe / 4 - yoe / 100 + doy in
  era * 146097 + doe - 719468.

(** [ts.year] *)
Definition year_of (t : Timestamp) : Z := fst (fst (civil_from_days (date_of t))).

(** [ts.to_period("M")] as the ordinal of the period: months since
    January 1970. *)
Definition month_period (t : Timestamp) : Z :=
  let '(y, m, _) := civil_from_days (date_of t) in (y - 1970) * 12 + (m - 1).

(** [period.start_time] of a monthly period. *)
Definition month_period_start (p : Z) : Timestamp :=
  midnight (days_from_civil (1970 + p / 12) (p mod 12 + 1) 1).

(** [ts.to_period("W").start_time.date()]: weekly periods end on Sunday, so
    each starts on the Monday on or before the day; day 0 was a Thursday. *)
Definition week_start (t : Timestamp) : Z :=
  let d := date_of t in d - (d + 3) mod 7.

(** ** Requests *)

(** The two POST routes with their form fields; a missing text field is the
    empty string, a missing [action] is [None]. *)
Inductive Request : Type :=
  | PostIndex (action : option string) (project activity notes : string)
  | PostAddProject (new_project new_activity : string).

Definition UnsupportedAction : Flash := mkFlash "Unsupported action." "error".

(** Whether the strings of a list are pairwise different. *)
Fixpoint distinct (l : list string) : bool :=
  match l with
  | [] => true
  | x :: l' => negb (existsb (String.eqb x) l') && distinct l'
  end.

Definition eq_dec_names (x y : string * string) : {x = y} + {x <> y}.
Proof. decide equality; apply string_dec. Defined.

Section Views.

Context {library : Library}.

(** [index], the POST branch, lines 292-299 *)
Definition index_post (wb : Workbook) (now : Timestamp) (action : option string)
    (project activity notes : string) : Flash * StoreWrite :=
  match action with
  | Some a =>
      if String.eqb a "start" then handle_start wb now project activity notes
      else if String.eqb a "stop" then handle_stop wb now notes
      else (UnsupportedAction, None)
  | None => (UnsupportedAction, None)
  end.

(** [add_project], lines 382-388 *)
Definition add_project (wb : Workbook) (new_project new_activity : string)
    : Flash * StoreWrite :=
  let result := add_project_activity wb new_project new_activity in
  let success := fst (fst result) in
  let message := snd (fst result) in
  (mkFlash message (if success then "success" else "error"), snd result).

(** One POST request served on the workbook in the store. *)
Definition serve (wb : Workbook) (now : Timestamp) (req : Request)
    : Flash * StoreWrite :=
  match req with
  | PostIndex action project activity notes =>
      index_post wb now action project activity notes
  | PostAddProject new_project new_activity =>
      add_project wb new_project new_activity
  end.

(** A sequence of requests, each with the clock reading it is served at,
    on a store that returns to each request the workbook the last write
    saved. *)
Definition run (wb : Workbook) (trace : list (Timestamp * Request)) : Workbook :=
  fold_left (fun wb tr => stored wb (snd (serve wb (fst tr) (snd tr)))) trace wb.

(** The two texts [add_project_activity] compares a definition by, lines
    136 and 140. *)
Definition definition_key (r : ProjectRow) : string * string :=
  (lower (astype_str (prj_Project r)),
   lower (astype_str (prj_Activity r))).

(** The same for the names of a request, lines 129-130. *)
Definition request_key (project activity : string) : string * string :=
  (lower (strip project), lower (strip activity)).

(** A name as the handlers store it: stripped and not empty. *)
Definition clean_name (s : string) : Prop := strip s = s /\ s <> "".

(** A definition of text cells with clean names, as [add_project_activity]
    appends it. *)
Definition definition_ok (r : ProjectRow) : Prop :=
  exists p a, r = mkProject (Str p) (Str a) /\ clean_name p /\ clean_name a.

Definition defined_pair (wb : Workbook) (p a : string) : Prop :=
  In (mkProject (Str p) (Str a)) (Projects wb).

(** A session as [handle_start] writes it, for a defined pair. *)
Definition session_ok (wb : Workbook) (r : ActiveRow) : Prop :=
  exists p a n t,
    r = mkActive (Str p) (Str a) (Str n) (Time t) /\ defined_pair wb p a.

(** A Log entry as [handle_stop] writes it, for a defined pair. *)
Definition entry_ok (wb : Workbook) (r : LogRow) : Prop :=
  exists p a s e notes,
    r = mkLog (Date (date_of s)) (Str p) (Str a) (Time s) (Time e)
              (Num (rounded_minutes s e)) notes /\
    defined_pair wb p a.

(** What the requests keep true of a workbook that starts out new. *)
Record Consistent (wb : Workbook) : Prop := mkConsistent {
  one_session : (List.length (Active wb) <= 1)%nat;
  definitions_ok : Forall definition_ok (Projects wb);
  definitions_unique : NoDup (map definition_key (Projects wb));
  sessions_ok : Forall (session_ok wb) (Active wb);
  entries_ok : Forall (entry_ok wb) (Log wb)
}.

(** The workbook [handle_start] writes when it accepts a request. *)
Definition started (wb : Workbook) (now : Timestamp)
    (form_project form_activity form_notes : string) : Workbook :=
  mkWorkbook (map log_row_to_write (Log wb)) (Projects wb)
             [mkActive (Str (strip form_project)) (Str (strip form_activity))
                       (Str (strip form_notes)) (Time now)].

(** The test [handle_start] makes of a request, lines 321-336. *)
Definition startable (wb : Workbook) (form_project form_activity : string)
    : Prop :=
  Idle wb /\ strip form_project <> "" /\ strip form_activity <> "" /\
  exists r, In r (Projects wb) /\
            cleaned_project r = (strip form_project, strip form_activity).

(** The workbook a saved Stop writes. *)
Definition stopped (wb : Workbook) (now : Timestamp) (form_notes : string)
    (active_entry : ActiveRow) (start_dt : Timestamp) : Workbook :=
  mkWorkbook
    (map log_row_to_write (Log wb) ++
     [mkLog (Date (date_of start_dt))
            (act_Project active_entry) (act_Activity active_entry)
            (Time start_dt) (Time now)
            (Num (rounded_minutes start_dt now))
            (if PyStr.truthy (strip form_notes) then Str (strip form_notes)
             else act_Notes active_entry)])%list
    (Projects wb) [].

(** The workbook an accepted definition writes. *)
Definition added (wb : Workbook) (project activity : string) : Workbook :=
  mkWorkbook (map log_row_to_write (Log wb))
             (Projects wb ++ [mkProject (Str (strip project))
                                        (Str (strip activity))])%list
             (map active_row_to_write (Active wb)).

(** Clock readings that never go back, from [lo] on. *)
Fixpoint nondecreasing (lo : Timestamp) (trace : list (Timestamp * Request))
    : Prop :=
  match trace with
  | [] => True
  | tr :: rest => lo <= fst tr /\ nondecreasing (fst tr) rest
  end.

(** No timestamp in the workbook is later than the clock, and no entry
    ends before it starts. *)
Definition Timely (clock : Timestamp) (wb : Workbook) : Prop :=
  Forall (fun r => exists t, act_Start r = Time t /\ t <= clock) (Active wb) /\
  Forall (fun r => exists s e,
              log_Start r = Time s /\ log_End r = Time e /\ s <= e /\
              log_DurationMinutes r = Num (rounded_minutes s e))
         (Log wb).

(** [project_names] of [index], line 311 *)
Definition project_names (projects_df : list ProjectRow) : list string :=
  PyStr.sorted (map fst (build_project_map projects_df)).

(** *** The other buckets of [build_summary] *)

(** Lines 181-183 with one more key column: the rows that have a Start,
    each with the key of its Start and its numeric DurationMinutes. *)
Definition keyed_minutes (key : Timestamp -> Z) (log_df : list LogRow)
    : list (Z * Q) :=
  flat_map
    (fun r =>
       match to_datetime (log_Start r) with
       | Some t => [(key t, numeric_or_zero (log_DurationMinutes r))]
       | None => []
       end)
    log_df.

(** [weekly_series], lines 189-190 *)
Definition weekly_series (log_df : list LogRow) : list (Z * Q) :=
  if empty log_df then [] else
  sort_index_descending (groupby_sum (keyed_minutes week_start log_df)).

(** [monthly_series], lines 196-197 *)
Definition monthly_series (log_df : list LogRow) : list (Z * Q) :=
  if empty log_df then [] else
  sort_index_descending (groupby_sum (keyed_minutes month_period log_df)).

(** [yearly_series], lines 203-204 *)
Definition yearly_series (log_df : list LogRow) : list (Z * Q) :=
  if empty log_df then [] else
  sort_index_descending (groupby_sum (keyed_minutes year_of log_df)).

(** [format_week_label], lines 161-167, on the Monday of a week *)
Definition format_week_label (week_start_day : Z) : string :=
  let start_dt := midnight week_start_day in
  let week_end := start_dt + 6 * ns_per_day in
  strftime "%b %d, %Y" start_dt ++ " – " ++ strftime "%b %d, %Y" week_end.

(** Lines 207-209: the rows that have a Start, with Project and Activity
    printed and stripped (a missing cell prints as [nan]) and the numeric
    DurationMinutes. *)
Definition activity_df (log_df : list LogRow) : list ((string * string) * Q) :=
  flat_map
    (fun r =>
       match to_datetime (log_Start r) with
       | Some _ =>
           [((strip (astype_str (log_Project r)),
              strip (astype_str (log_Activity r))),
             numeric_or_zero (log_DurationMinutes r))]
       | None => []
       end)
    log_df.

(** [groupby(keys)[value].sum()] for text keys. *)
Definition groupby_sum_by {K : Type} (eq_dec : forall x y : K, {x = y} + {x <> y})
    (leb : K -> K -> bool) (rows : list (K * Q)) : list (K * Q) :=
  map (fun k =>
         (k, qsum (map snd (filter (fun r => if eq_dec (fst r) k then true else false)
                                   rows))))
      (sort_with leb (nodup eq_dec (map fst rows))).

(** The order of a two-level index: by project, then by activity. *)
Definition names_leb (x y : string * string) : bool :=
  match String.compare (fst x) (fst y) with
  | Lt => true
  | Gt => false
  | Eq => String.leb (snd x) (snd y)
  end.

(** [.sort_values(ascending=False)]: largest sum first.  Buckets of equal
    sum stay in index order here; pandas promises no order among them. *)
Definition sort_values_descending {K : Type} (series : list (K * Q))
    : list (K * Q) :=
  sort_with (fun a b => Qle_bool (snd b) (snd a)) series.

(** [activity_series], lines 210-215 *)
Definition activity_series (log_df : list LogRow) : list ((string * string) * Q) :=
  if empty log_df then [] else
  sort_values_descending
    (groupby_sum_by eq_dec_names names_leb
       (filter (fun r => negb (String.eqb (fst (fst r)) "")
                         && negb (String.eqb (snd (fst r)) ""))
               (activity_df log_df))).

(** [project_series], lines 221-226 *)
Definition project_series (log_df : list LogRow) : list (string * Q) :=
  if empty log_df then [] else
  sort_values_descending
    (groupby_sum_by string_dec String.leb
       (map (fun r => (fst (fst r), snd r))
            (filter (fun r => negb (String.eqb (fst (fst r)) ""))
                    (activity_df log_df)))).

(** The rows of the bucket [k] of a series keyed by name, in frame
    order. *)
Definition named_bucket {K : Type} (eq_dec : forall x y : K, {x = y} + {x <> y})
    (k : K) (rows : list (K * Q)) : list (K * Q) :=
  filter (fun r => if eq_dec (fst r) k then true else false) rows.

(** The frame [activity_series] groups, lines 210-211: the rows with a
    project and an activity name. *)
Definition named_activity_df (log_df : list LogRow)
    : list ((string * string) * Q) :=
  filter (fun r => negb (String.eqb (fst (fst r)) "")
                   && negb (String.eqb (snd (fst r)) ""))
         (activity_df log_df).

(** The frame [project_series] groups, lines 221-222: the rows with a
    project name, each with its project and its minutes. *)
Definition project_df (log_df : list LogRow) : list (string * Q) :=
  map (fun r => (fst (fst r), snd r))
      (filter (fun r => negb (String.eqb (fst (fst r)) "")) (activity_df log_df)).

(** What [build_summary] returns: six lists of label and duration. *)
Record Summary : Type := mkSummary {
  daily : list (string * string);
  weekly : list (string * string);
  monthly : list (string * string);
  yearly : list (string * string);
  activities : list (string * string);
  projects : list (string * string)
}.

(** [build_summary], lines 170-236; [None] when a duration does not
    format. *)
Definition build_summary (log_df : list LogRow) : option Summary :=
  match
    build_summary_daily log_df,
    format_series format_week_label (weekly_series log_df),
    format_series (fun p => strftime "%b %Y" (month_period_start p))
                  (monthly_series log_df),
    format_series PyStr.of_int (yearly_series log_df),
    format_series (fun k => fst k ++ " · " ++ snd k) (activity_series log_df),
    format_series (fun project => project) (project_series log_df)
  with
  | Some daily, Some weekly, Some monthly, Some yearly, Some activities,
    Some projects =>
      Some (mkSummary daily weekly monthly yearly activities projects)
  | _, _, _, _, _, _ => None
  end.

(** A row whose End reads as a timestamp. *)
Definition has_end (r : LogRow) : bool :=
  match to_datetime (log_End r) with Some _ => true | None => false end.

(** The frame [recent] of [get_recent_logs], lines 240-246: the rows with
    a Start and an End, latest Start first, at most [limit] of them, each
    with its two timestamps.  Rows of equal Start stay in sheet order here;
    pandas promises no order among them. *)
Definition recent_frame (log_df : list LogRow) (limit : nat)
    : list (Timestamp * Timestamp * LogRow) :=
  if empty log_df then [] else
  let df :=
    flat_map
      (fun r =>
         match to_datetime (log_Start r), to_datetime (log_End r) with
         | Some s, Some e => [(s, e, r)]
         | _, _ => []
         end)
      log_df in
  firstn limit (sort_with (fun a b => fst (fst b) <=? fst (fst a)) df).

End Views.

(** * Properties *)

(** ** Sorting *)

Section SortFacts.

Variable A : Type.
Variable leb : A -> A -> bool.

Lemma insert_sorted_perm (x : A) (l : list A) :
  Permutation (insert_sorted leb x l) (x :: l).
Proof.
  induction l as [|y l IH]; simpl.
  - apply Permutation_refl.
  - destruct (leb x y).
    + apply Permutation_refl.
    + eapply Permutation_trans.
      * apply perm_skip, IH.
      * apply perm_swap.
Qed.

Lemma sort_with_perm (l : list A) : Permutation (sort_with leb l) l.
Proof.
  induction l as [|x l IH]; simpl.
  - apply perm_nil.
  - eapply Permutation_trans.
    + apply insert_sorted_perm.
    + apply perm_skip, IH.
Qed.

Lemma sort_with_in (l : list A) (x : A) : In x (sort_with leb l) <-> In x l.
Proof.
  split; apply Permutation_in.
  - apply sort_with_perm.
  - apply Permutation_sym, sort_with_perm.
Qed.

Lemma sort_with_nodup (l : list A) : NoDup l -> NoDup (sort_with leb l).
Proof.
  intro H. eapply Permutation_NoDup; [|exact H].
  apply Permutation_sym, sort_with_perm.
Qed.

Hypothesis leb_total : forall x y, leb x y = true \/ leb y x = true.

Lemma insert_sorted_sorted (x : A) (l : list A) :
  Sorted (fun a b => leb a b = true) l ->
  Sorted (fun a b => leb a b = true) (insert_sorted leb x l).
Proof.
  induction l as [|y l IH]; simpl; intro Hs.
  - repeat constructor.
  - destruct (leb x y) eqn:Hxy.
    + constructor; [exact Hs | constructor; exact Hxy].
    + inversion Hs as [|? ? Hs' Hhd]; subst.
      constructor; [apply IH; exact Hs'|].
      destruct l as [|z l]; simpl.
      * constructor. destruct (leb_total x y) as [E|E]; congruence.
      * destruct (leb x z).
        -- constructor. destruct (leb_total x y) as [E|E]; congruence.
        -- inversion Hhd; subst. constructor. assumption.
Qed.

Lemma sort_with_sorted (l : list A) :
  Sorted (fun a b => leb a b = true) (sort_with leb l).
Proof.
  induction l as [|x l IH]; simpl.
  - constructor.
  - apply insert_sorted_sorted, IH.
Qed.

End SortFacts.

(** ** Strings *)

Module PyStrFacts.
Import PyStr.

(** The order [sorted] uses on strings is transitive. *)
Lemma ascii_compare_N (a b : ascii) :
  Ascii.compare a b = N.compare (N_of_ascii a) (N_of_ascii b).
Proof. reflexivity. Qed.

Lemma string_compare_lt_trans (a : string) :
  forall b c, String.compare a b = Lt -> String.compare b c = Lt ->
              String.compare a c = Lt.
Proof.
  induction a as [|x a IH]; intros [|y b] [|z c]; simpl; try congruence.
  rewrite !ascii_compare_N.
  destruct (N.compare_spec (N_of_ascii x) (N_of_ascii y)) as [E1|L1|G1];
    try congruence;
    destruct (N.compare_spec (N_of_ascii y) (N_of_ascii z)) as [E2|L2|G2];
    try congruence; intros H1 H2.
  - rewrite E1, E2, N.compare_refl. eapply IH; eassumption.
  - rewrite E1. apply N.compare_lt_iff in L2. rewrite L2. reflexivity.
  - rewrite <- E2. apply N.compare_lt_iff in L1. rewrite L1. reflexivity.
  - assert (L : (N_of_ascii x < N_of_ascii z)%N) by lia.
    apply N.compare_lt_iff in L. rewrite L. reflexivity.
Qed.

Lemma string_compare_refl (a : string) : String.compare a a = Eq.
Proof.
  induction a as [|x a IH]; simpl; [reflexivity|].
  rewrite ascii_compare_N, N.compare_refl. exact IH.
Qed.

Lemma string_leb_trans (a b c : string) :
  String.leb a b = true -> String.leb b c = true -> String.leb a c = true.
Proof.
  unfold String.leb.
  destruct (String.compare a b) eqn:Hab; try discriminate;
    destruct (String.compare b c) eqn:Hbc; try discriminate; intros _ _.
  - apply String.compare_eq_iff in Hab, Hbc. subst.
    rewrite string_compare_refl. reflexivity.
  - apply String.compare_eq_iff in Hab. subst. rewrite Hbc. reflexivity.
  - apply String.compare_eq_iff in Hbc. subst. rewrite Hab. reflexivity.
  - rewrite (string_compare_lt_trans _ _ _ Hab Hbc). reflexivity.
Qed.

Lemma string_ltb_of_leb (a b : string) :
  String.leb a b = true -> a <> b -> String.ltb a b = true.
Proof.
  unfold String.leb, String.ltb.
  destruct (String.compare a b) eqn:H; try congruence.
  apply String.compare_eq_iff in H. congruence.
Qed.

(** [sorted] returns its argument in ascending order, every element at most
    each later one. *)
Lemma sorted_ascending (l : list string) :
  StronglySorted (fun a b => String.leb a b = true) (sorted l).
Proof.
  apply Sorted_StronglySorted.
  - intros a b c. apply string_leb_trans.
  - apply sort_with_sorted. apply String.leb_total.
Qed.

(** On a duplicate-free list the order is strict. *)
Lemma sorted_strictly_ascending (l : list string) :
  NoDup l -> StronglySorted (fun a b => String.ltb a b = true) (sorted l).
Proof.
  intro Hnd.
  assert (Hnd' : NoDup (sorted l)) by (apply sort_with_nodup; exact Hnd).
  pose proof (sorted_ascending l) as Hs.
  induction Hs as [|x xs Hs IH Hall]; [constructor|].
  inversion Hnd' as [|? ? Hnotin Hnd'']; subst.
  constructor; [apply IH; exact Hnd''|].
  rewrite Forall_forall in *. intros y Hy.
  apply string_ltb_of_leb; [apply Hall; exact Hy|].
  intro E. subst. contradiction.
Qed.

Lemma sorted_set_in (l : list string) (x : string) :
  In x (sorted (set_of l)) <-> In x l.
Proof.
  unfold sorted, set_of. rewrite sort_with_in. apply nodup_In.
Qed.

(** Stripping twice is stripping once. *)
Lemma lstrip_starts_clean (s : string) : starts_clean (lstrip s).
Proof.
  induction s as [|c s IH]; simpl; [exact I|].
  destruct (is_space c) eqn:E; simpl; [exact IH | exact E].
Qed.

Lemma lstrip_clean (s : string) : starts_clean s -> lstrip s = s.
Proof.
  destruct s as [|c s]; simpl; [reflexivity|].
  intro H. rewrite H. reflexivity.
Qed.

Lemma rstrip_starts_clean (s : string) :
  starts_clean s -> starts_clean (rstrip s).
Proof.
  destruct s as [|c s]; simpl; [exact (fun H => H)|].
  intro H. destruct (rstrip s); [rewrite H|]; simpl; exact H.
Qed.

Lemma rstrip_idempotent (s : string) : rstrip (rstrip s) = rstrip s.
Proof.
  induction s as [|c s IH]; simpl; [reflexivity|].
  destruct (rstrip s) as [|d r] eqn:E.
  - destruct (is_space c) eqn:Ec; simpl; [reflexivity|].
    rewrite Ec. reflexivity.
  - simpl in *. rewrite IH. reflexivity.
Qed.

Lemma ascii_strip_idempotent (s : string) :
  ascii_strip (ascii_strip s) = ascii_strip s.
Proof.
  unfold ascii_strip.
  rewrite (lstrip_clean (rstrip (lstrip s))).
  - apply rstrip_idempotent.
  - apply rstrip_starts_clean, lstrip_starts_clean.
Qed.

Lemma truthy_nonempty (s : string) : truthy s = true <-> s <> "".
Proof. destruct s; simpl; split; congruence. Qed.

End PyStrFacts.

(** ** Rounding in exact arithmetic *)

Lemma py_round_close (x : Q) :
  (Qabs (inject_Z (py_round x) - x) <= 1 # 2)%Q.
Proof.
  unfold py_round.
  pose proof (Qfloor_le x) as Hlo. pose proof (Qlt_floor x) as Hhi.
  rewrite inject_Z_plus in Hhi. change (inject_Z 1) with 1%Q in Hhi.
  destruct (Qcompare_spec (x - inject_Z (Qfloor x)) (1 # 2)) as [E|L|G];
    [destruct (Z.even (Qfloor x))| |];
    rewrite ?inject_Z_plus; change (inject_Z 1) with 1%Q;
    apply Qabs_Qle_condition; split; lra.
Qed.

(** [round2] keeps two decimals and moves its argument by at most half a
    hundredth. *)
Lemma round2_close (x : Q) : (Qabs (round2 x - x) <= 1 # 200)%Q.
Proof.
  pose proof (py_round_close (x * (100 # 1))) as H.
  apply Qabs_Qle_condition in H. destruct H as [H1 H2].
  assert (E : (round2 x == inject_Z (py_round (x * (100 # 1))) * (1 # 100))%Q).
  { unfold round2. rewrite (Qmake_Qdiv _ 100). reflexivity. }
  apply Qabs_Qle_condition. rewrite E. split; lra.
Qed.

Lemma py_round_nonneg (x : Q) : (0 <= x)%Q -> 0 <= py_round x.
Proof.
  intro Hx. unfold py_round.
  assert (Hf : 0 <= Qfloor x).
  { change 0 with (Qfloor 0). apply Qfloor_resp_le, Hx. }
  destruct (Qcompare _ _); [destruct (Z.even _)| |]; lia.
Qed.

Lemma py_round_nonpos (x : Q) : (x <= 0)%Q -> py_round x <= 0.
Proof.
  intro Hx. unfold py_round.
  pose proof (Qfloor_le x) as Hlo.
  assert (Hf : Qfloor x <= 0).
  { change 0 with (Qfloor 0). apply Qfloor_resp_le, Hx. }
  destruct (Qcompare_spec (x - inject_Z (Qfloor x)) (1 # 2)) as [E|L|G].
  - assert (Hneg : Qfloor x < 0).
    { apply Z.lt_nge. intro H0. assert (Qfloor x = 0) as E0 by lia.
      rewrite E0 in E. change (inject_Z 0) with 0%Q in E. lra. }
    destruct (Z.even (Qfloor x)); lia.
  - exact Hf.
  - assert (Hneg : Qfloor x < 0).
    { apply Z.lt_nge. intro H0. assert (Qfloor x = 0) as E0 by lia.
      rewrite E0 in G. change (inject_Z 0) with 0%Q in G. lra. }
    lia.
Qed.

Lemma round2_sign (x : Q) :
  ((0 <= x)%Q -> (0 <= round2 x)%Q) /\ ((x <= 0)%Q -> (round2 x <= 0)%Q).
Proof.
  unfold round2, Qle; simpl. split; intro H.
  - assert (0 <= py_round (x * (100 # 1))).
    { apply py_round_nonneg. apply Qmult_le_0_compat; [exact H | discriminate]. }
    lia.
  - assert (py_round (x * (100 # 1)) <= 0).
    { apply py_round_nonpos.
      setoid_replace 0%Q with (0 * (100 # 1))%Q by reflexivity.
      apply Qmult_le_compat_r; [exact H | discriminate]. }
    lia.
Qed.

Lemma minutes_between_sign (start_dt end_dt : Timestamp) :
  (start_dt <= end_dt -> (0 <= minutes_between start_dt end_dt)%Q) /\
  (end_dt <= start_dt -> (minutes_between start_dt end_dt <= 0)%Q).
Proof.
  unfold minutes_between.
  assert (E : (inject_Z (end_dt - start_dt) / inject_Z ns_per_second / (60 # 1)
               == inject_Z (end_dt - start_dt) * (1 # 60000000000))%Q).
  { unfold Qdiv. rewrite <- Qmult_assoc. reflexivity. }
  rewrite E. split; intro H.
  - apply Qmult_le_0_compat; [|discriminate].
    change 0%Q with (inject_Z 0). rewrite <- Zle_Qle. lia.
  - setoid_replace 0%Q with (0 * (1 # 60000000000))%Q by reflexivity.
    apply Qmult_le_compat_r; [|discriminate].
    change 0%Q with (inject_Z 0). rewrite <- Zle_Qle. lia.
Qed.

(** [round] gives equal rationals the same integer and leaves a whole
    number where it is. *)
Lemma py_round_comp (x y : Q) : (x == y)%Q -> py_round x = py_round y.
Proof.
  intro E. unfold py_round. rewrite (Qfloor_comp x y E).
  assert (E' : (x - inject_Z (Qfloor y) == y - inject_Z (Qfloor y))%Q)
    by (rewrite E; reflexivity).
  rewrite (Qcompare_comp _ _ E' (1 # 2) (1 # 2) (Qeq_refl _)). reflexivity.
Qed.

Lemma py_round_whole (n : Z) : py_round (inject_Z n) = n.
Proof.
  unfold py_round. rewrite Qfloor_Z.
  assert (E : (inject_Z n - inject_Z n == 0)%Q) by ring.
  rewrite (Qcompare_comp _ _ E (1 # 2) (1 # 2) (Qeq_refl _)). reflexivity.
Qed.

(** ** A small instance of the library, for running the handlers *)

(** What the instance is to satisfy, for the float expressions computed in
    exact arithmetic. *)
Lemma plain_whole_seconds_exact (minutes : Q) (n : Z) :
  (minutes * (60 # 1) == inject_Z n)%Q -> Z.abs n <= 2 ^ 31 ->
  Some (py_round (minutes * (60 # 1))) = Some n.
Proof.
  intros E _. rewrite (py_round_comp _ _ E), py_round_whole. reflexivity.
Qed.

Lemma plain_whole_seconds_near (minutes : Q) (n : Z) :
  Some (py_round (minutes * (60 # 1))) = Some n -> Z.abs n <= 2 ^ 31 ->
  (Qabs (inject_Z n - minutes * (60 # 1)) <= 500001 # 1000000)%Q.
Proof.
  intros E _. injection E as <-.
  eapply Qle_trans; [apply py_round_close | discriminate].
Qed.

Lemma plain_rounded_minutes_hundredths (start_dt end_dt : Timestamp) :
  exists hundredths : Z,
    (Qabs (round2 (minutes_between start_dt end_dt) - (hundredths # 100))
     <= 1 # 1000000)%Q.
Proof.
  exists (py_round (minutes_between start_dt end_dt * (100 # 1))).
  unfold round2.
  set (q := py_round (minutes_between start_dt end_dt * (100 # 1)) # 100).
  setoid_replace (q - q)%Q with 0%Q by ring. discriminate.
Qed.

Lemma plain_whole_seconds_sign (minutes : Q) (n : Z) :
  Some (py_round (minutes * (60 # 1))) = Some n ->
  ((0 <= minutes)%Q -> 0 <= n) /\ ((minutes <= 0)%Q -> n <= 0).
Proof.
  intro E. injection E as <-. split; intro H.
  - apply py_round_nonneg. apply Qmult_le_0_compat; [exact H | discriminate].
  - apply py_round_nonpos.
    setoid_replace 0%Q with (0 * (60 # 1))%Q by reflexivity.
    apply Qmult_le_compat_r; [exact H | discriminate].
Qed.

Lemma plain_rounded_minutes_near (start_dt end_dt : Timestamp) :
  (Qabs (round2 (minutes_between start_dt end_dt)
         - minutes_between start_dt end_dt)
   <= 501 # 100000)%Q.
Proof.
  eapply Qle_trans; [apply round2_close | discriminate].
Qed.

Lemma plain_rounded_minutes_sign (start_dt end_dt : Timestamp) :
  (start_dt <= end_dt -> (0 <= round2 (minutes_between start_dt end_dt))%Q) /\
  (end_dt <= start_dt -> (round2 (minutes_between start_dt end_dt) <= 0)%Q).
Proof.
  split; intro H; apply round2_sign, minutes_between_sign, H.
Qed.

(** No text is read as a date or as a number, a number is read as
    nanoseconds since the epoch, values are printed as plain integers, text
    is stripped and lower-cased by the ASCII tables and the float
    expressions are computed in exact arithmetic.  The examples below use
    ASCII text, cells whose reading does not depend on the instance, and
    durations on which exact and float arithmetic agree. *)
#[local] Instance plain_library : Library := {
  parse_datetime := fun _ => None;
  datetime_of_number := fun q => Some (Qfloor q);
  parse_number := fun _ => None;
  number_of_datetime := fun _ => None;
  str_of_number := fun q => PyStr.of_int (Qfloor q);
  str_of_date := fun d => PyStr.of_int d;
  str_of_datetime := fun t => PyStr.of_int t;
  strftime := fun _ t => PyStr.of_int t;
  isoformat := fun t => PyStr.of_int t;
  strip := PyStr.ascii_strip;
  lower := PyStr.ascii_lower;
  whole_seconds := fun minutes => Some (py_round (minutes * (60 # 1)));
  rounded_minutes :=
    fun start_dt end_dt => round2 (minutes_between start_dt end_dt);
  strip_idempotent := PyStrFacts.ascii_strip_idempotent;
  strip_ascii := fun _ _ => eq_refl;
  lower_ascii := fun _ _ => eq_refl;
  whole_seconds_exact := plain_whole_seconds_exact;
  whole_seconds_near := plain_whole_seconds_near;
  whole_seconds_sign := plain_whole_seconds_sign;
  rounded_minutes_hundredths := plain_rounded_minutes_hundredths;
  rounded_minutes_near := plain_rounded_minutes_near;
  rounded_minutes_sign := plain_rounded_minutes_sign
}.

(** ** Example data *)

(** 1 January 2024, 09:00. *)
Definition T0 : Timestamp := midnight 19723 + 9 * 3600 * ns_per_second.

(** A workbook with one definition and no timer. *)
Definition idle_workbook : Workbook :=
  mkWorkbook [] [mkProject (Str "Work") (Str "Email")] [].

(** The same after Start(Work, Email, no notes) at [T0]. *)
Definition running_workbook : Workbook :=
  stored idle_workbook (snd (handle_start idle_workbook T0 "Work" "Email" "")).


(** A session started one minute before midnight. *)
Definition late_workbook : Workbook :=
  mkWorkbook [] [mkProject (Str "Work") (Str "Email")]
             [mkActive (Str "Work") (Str "Email") (Str "night shift")
                       (Time (midnight 19724 - 60 * ns_per_second))].

(** A running session whose Start cell is empty, after one logged entry. *)
Definition corrupt_workbook : Workbook :=
  mkWorkbook
    [mkLog (Date 19723) (Str "Work") (Str "Email") (Time T0)
           (Time (T0 + 125 * ns_per_second)) (Num (208 # 100)) (Str "done")]
    [mkProject (Str "Work") (Str "Email")]
    [mkActive (Str "Work") (Str "Email") NA NA].

(** A Log sheet with two entries on one day and one on the next. *)
Definition sample_log : list LogRow :=
  [mkLog (Date 19723) (Str "Work") (Str "Email") (Time T0)
         (Time (T0 + 1800 * ns_per_second)) (Num (30 # 1)) NA;
   mkLog (Date 19723) (Str "Work") (Str "Email")
         (Time (T0 + 3600 * ns_per_second))
         (Time (T0 + 6300 * ns_per_second)) (Num (45 # 1)) NA;
   mkLog (Date 19724) (Str "Work") (Str "Email") (Time (T0 + ns_per_day))
         (Time (T0 + ns_per_day + 60 * ns_per_second)) (Num (1 # 1)) NA].


(** A Projects sheet with padded, repeated and blank cells. *)
Definition sample_projects : list ProjectRow :=
  [mkProject (Str " b ") (Str "y"); mkProject (Str "a") (Str "z");
   mkProject (Str "b") (Str " x"); mkProject (Str "b") (Str "y");
   mkProject NA (Str "q"); mkProject (Str "a") NA;
   mkProject (Str "c") (Str "  ")].

(** Three requests on a new workbook: define Work / Email, start it one
    second later with padded names, stop it 125 seconds after that. *)
Definition sample_trace : list (Timestamp * Request) :=
  [(T0, PostAddProject "Work" "Email");
   (T0 + ns_per_second, PostIndex (Some "start") " Work" "Email " "");
   (T0 + 126 * ns_per_second, PostIndex (Some "stop") "" "" "done")].

(** The entry those requests log. *)
Definition sample_entry : LogRow :=
  mkLog (Date 19723) (Str "Work") (Str "Email") (Time (T0 + ns_per_second))
        (Time (T0 + 126 * ns_per_second)) (Num (208 # 100)) (Str "done").

(** ** Taxonomy index *)

Section TaxonomyFacts.

Context {library : Library}.
Import PyStr PyStrFacts.

Lemma cleaned_project_stripped (rows : list ProjectRow) (c : string * string) :
  In c (map cleaned_project rows) ->
  strip (fst c) = fst c /\ strip (snd c) = snd c.
Proof.
  rewrite in_map_iff. intros [r [<- _]]. unfold cleaned_project; simpl.
  split; apply strip_idempotent.
Qed.

Lemma project_items_keys (cleaned : list (string * string)) (keys : list string) :
  map fst (project_items cleaned keys) = filter truthy keys.
Proof.
  induction keys as [|k keys IH]; simpl; [reflexivity|].
  destruct (truthy k); simpl; rewrite IH; reflexivity.
Qed.

Lemma project_items_in (cleaned : list (string * string)) (keys : list string)
    (project : string) (activities : list string) :
  In (project, activities) (project_items cleaned keys) ->
  In project keys /\ truthy project = true /\
  activities = sorted (set_of (filter truthy (group_activities cleaned project))).
Proof.
  unfold project_items. rewrite in_flat_map. intros [k [Hk Hin]].
  destruct (truthy k) eqn:Ek; simpl in Hin; [|contradiction].
  destruct Hin as [E|[]]. inversion E; subst. auto.
Qed.

Lemma build_project_map_items (projects_df : list ProjectRow) :
  build_project_map projects_df =
  project_items (map cleaned_project projects_df)
           (sorted (set_of (map fst (map cleaned_project projects_df)))).
Proof.
  destruct projects_df; reflexivity.
Qed.

(** C7.  For every Projects sheet, the mapping [build_project_map] returns
    has pairwise distinct project keys, none of them empty after trimming;
    no activity in it is empty after trimming; the activities of each
    project are free of duplicates and in strictly ascending order; and the
    empty sheet gives the empty mapping. *)
Theorem build_project_map_clean (projects_df : list ProjectRow) :
  NoDup (map fst (build_project_map projects_df)) /\
  (forall project activities,
      In (project, activities) (build_project_map projects_df) ->
      strip project <> "" /\
      (forall a, In a activities -> strip a <> "") /\
      NoDup activities /\
      StronglySorted (fun a b => String.ltb a b = true) activities) /\
  build_project_map [] = [].
Proof.
  rewrite build_project_map_items.
  set (cleaned := map cleaned_project projects_df).
  split; [|split; [|reflexivity]].
  - rewrite project_items_keys. apply NoDup_filter, sort_with_nodup, NoDup_nodup.
  - intros project activities Hin.
    apply project_items_in in Hin. destruct Hin as [Hkey [Htruthy ->]].
    split; [|split; [|split]].
    + apply sorted_set_in, in_map_iff in Hkey. destruct Hkey as [c [<- Hc]].
      apply cleaned_project_stripped in Hc. destruct Hc as [-> _].
      apply truthy_nonempty, Htruthy.
    + intros a Ha. apply sorted_set_in, filter_In in Ha.
      destruct Ha as [Ha Hta]. unfold group_activities in Ha.
      apply in_map_iff in Ha. destruct Ha as [c [<- Hc]].
      apply filter_In in Hc. destruct Hc as [Hc _].
      apply cleaned_project_stripped in Hc. destruct Hc as [_ ->].
      apply truthy_nonempty, Hta.
    + apply sort_with_nodup, NoDup_nodup.
    + apply sorted_strictly_ascending, NoDup_nodup.
Qed.

End TaxonomyFacts.

(** ** Aggregation *)

Section AggregationFacts.

Context {library : Library}.




End AggregationFacts.

(** ** Saving the workbook *)

Section StoreFacts.

Context {library : Library}.

Lemma date_of_midnight (d : Z) : date_of (midnight d) = d.
Proof. unfold date_of, midnight. apply Z.div_mul. discriminate. Qed.

Lemma write_workbook_sheets (log_df : list LogRow)
    (projects_df : list ProjectRow) (active_df : list ActiveRow) :
  write_workbook log_df projects_df active_df =
  mkWorkbook (map log_row_to_write log_df) projects_df
             (map active_row_to_write active_df).
Proof.
  unfold write_workbook. destruct log_df, active_df; reflexivity.
Qed.

(** A row that was saved is saved again unchanged. *)
Lemma log_row_to_write_idempotent (r : LogRow) :
  log_row_to_write (log_row_to_write r) = log_row_to_write r.
Proof.
  unfold log_row_to_write, date_cell, datetime_cell; simpl.
  destruct (to_datetime (log_Date r)); simpl; rewrite ?date_of_midnight;
    destruct (to_datetime (log_Start r)); simpl;
    destruct (to_datetime (log_End r)); reflexivity.
Qed.

(** The entry of a stopped session is saved as it was built. *)
Lemma log_row_to_write_entry (d : Z) (project activity duration notes : Cell)
    (start_dt end_dt : Timestamp) :
  log_row_to_write
    (mkLog (Date d) project activity (Time start_dt) (Time end_dt) duration notes)
  = mkLog (Date d) project activity (Time start_dt) (Time end_dt) duration notes.
Proof.
  unfold log_row_to_write, date_cell; simpl. rewrite date_of_midnight.
  reflexivity.
Qed.

End StoreFacts.

(** ** Session state machine *)

Section SessionFacts.

Context {library : Library}.
Import PyStr.

(** What [handle_stop] does to a running session whose Start reads as a
    timestamp. *)
Lemma handle_stop_running (wb : Workbook) (now : Timestamp) (form_notes : string)
    (active_entry : ActiveRow) (rest : list ActiveRow) (start_dt : Timestamp) :
  Active wb = active_entry :: rest ->
  to_datetime (act_Start active_entry) = Some start_dt ->
  handle_stop wb now form_notes =
  (SessionSaved,
   Some
     (mkWorkbook
        (map log_row_to_write (Log wb) ++
         [mkLog (Date (date_of start_dt))
                (act_Project active_entry) (act_Activity active_entry)
                (Time start_dt) (Time now)
                (Num (rounded_minutes start_dt now))
                (if truthy (strip form_notes) then Str (strip form_notes)
                 else act_Notes active_entry)])%list
        (Projects wb) [])).
Proof.
  intros Hactive Hstart. unfold handle_stop. rewrite Hactive, Hstart.
  rewrite write_workbook_sheets, map_app. simpl map.
  rewrite log_row_to_write_entry. reflexivity.
Qed.

(** A Start that succeeds found no timer running and leaves one Active row,
    started at the clock reading, with the trimmed form fields. *)
Lemma handle_start_success (wb : Workbook) (now : Timestamp)
    (form_project form_activity form_notes : string) :
  category (fst (handle_start wb now form_project form_activity form_notes))
  = "success" ->
  Idle wb /\
  snd (handle_start wb now form_project form_activity form_notes) =
  Some (mkWorkbook (map log_row_to_write (Log wb)) (Projects wb)
          [mkActive (Str (strip form_project)) (Str (strip form_activity))
                    (Str (strip form_notes)) (Time now)]).
Proof.
  unfold handle_start, Idle.
  destruct (empty (Active wb)); simpl; [|discriminate].
  destruct (truthy (strip form_project)); simpl; [|discriminate].
  destruct (truthy (strip form_activity)); simpl; [|discriminate].
  destruct (dict_get _ _) as [activities|]; simpl; [|discriminate].
  destruct (mem _ _); simpl; [|discriminate].
  intros _. split; [reflexivity|]. f_equal. apply write_workbook_sheets.
Qed.

(** Start, then Stop, with the workbook read back as it was written: the
    Log gains one entry for the trimmed project and activity of the Start,
    lasting from the clock reading of the Start to that of the Stop. *)
Lemma start_then_stop (wb : Workbook) (t0 t1 : Timestamp)
    (form_project form_activity form_notes stop_notes : string) :
  category (fst (handle_start wb t0 form_project form_activity form_notes))
  = "success" ->
  handle_stop
    (stored wb (snd (handle_start wb t0 form_project form_activity form_notes)))
    t1 stop_notes
  = (SessionSaved,
     Some
       (mkWorkbook
          (map log_row_to_write (Log wb) ++
           [mkLog (Date (date_of t0))
                  (Str (strip form_project)) (Str (strip form_activity))
                  (Time t0) (Time t1)
                  (Num (rounded_minutes t0 t1))
                  (if truthy (strip stop_notes) then Str (strip stop_notes)
                   else Str (strip form_notes))])%list
          (Projects wb) [])).
Proof.
  intro Hok. apply handle_start_success in Hok. destruct Hok as [_ ->].
  simpl stored.
  set (row := mkActive (Str (strip form_project)) (Str (strip form_activity))
                       (Str (strip form_notes)) (Time t0)).
  rewrite (handle_stop_running
             (mkWorkbook (map log_row_to_write (Log wb)) (Projects wb) [row])
             t1 stop_notes row [] t0 eq_refl eq_refl).
  simpl. rewrite map_map.
  rewrite (map_ext _ _ log_row_to_write_idempotent). reflexivity.
Qed.


(** C3.  While a timer is running, Start fails with the already-running
    message and writes nothing, so the three sheets stay as they were,
    whatever the project, activity and notes of the request. *)
Theorem start_while_running (wb : Workbook) (now : Timestamp)
    (form_project form_activity form_notes : string) :
  Running wb ->
  handle_start wb now form_project form_activity form_notes
  = (AlreadyRunning, None) /\
  stored wb (snd (handle_start wb now form_project form_activity form_notes))
  = wb.
Proof.
  unfold Running, handle_start. intros ->. split; reflexivity.
Qed.

(** C4.  While no timer is running, Stop fails with the no-running-timer
    message and writes nothing, so the three sheets stay as they were,
    whatever the notes. *)
Theorem stop_while_idle (wb : Workbook) (now : Timestamp) (form_notes : string) :
  Idle wb ->
  handle_stop wb now form_notes = (NoActiveSession, None) /\
  stored wb (snd (handle_stop wb now form_notes)) = wb.
Proof.
  unfold Idle, handle_stop.
  destruct (Active wb); [split; reflexivity | discriminate].
Qed.

(** C5.  Stopping a running session whose persisted Start does not read as
    a timestamp fails with the invalid-start message, writes the Log with
    the entries it had and no other, and empties the Active sheet: the
    machine is idle afterwards. *)
Theorem stop_corrupt_session (wb : Workbook) (now : Timestamp)
    (form_notes : string) (active_entry : ActiveRow) (rest : list ActiveRow) :
  Active wb = active_entry :: rest ->
  to_datetime (act_Start active_entry) = None ->
  handle_stop wb now form_notes =
    (CorruptSession,
     Some (mkWorkbook (map log_row_to_write (Log wb)) (Projects wb) [])) /\
  List.length (Log (stored wb (snd (handle_stop wb now form_notes))))
  = List.length (Log wb) /\
  Idle (stored wb (snd (handle_stop wb now form_notes))).
Proof.
  intros Hactive Hstart.
  assert (E : handle_stop wb now form_notes =
              (CorruptSession,
               Some (mkWorkbook (map log_row_to_write (Log wb))
                                (Projects wb) []))).
  { unfold handle_stop. rewrite Hactive, Hstart, write_workbook_sheets.
    reflexivity. }
  rewrite E. simpl. rewrite length_map. repeat split.
Qed.

(** C10.  The entry a successful Stop appends is dated on the calendar day
    of the session's Start, whatever the time of the Stop. *)
Theorem stop_dates_entry_by_start (wb : Workbook) (now : Timestamp)
    (form_notes : string) (active_entry : ActiveRow) (rest : list ActiveRow)
    (start_dt : Timestamp) :
  Active wb = active_entry :: rest ->
  to_datetime (act_Start active_entry) = Some start_dt ->
  exists entry : LogRow,
    Log (stored wb (snd (handle_stop wb now form_notes)))
    = (map log_row_to_write (Log wb) ++ [entry])%list /\
    log_Date entry = Date (date_of start_dt) /\
    log_Start entry = Time start_dt /\
    log_End entry = Time now.
Proof.
  intros Hactive Hstart.
  rewrite (handle_stop_running wb now form_notes _ _ _ Hactive Hstart).
  eexists. split; [reflexivity|]. repeat split.
Qed.

(** C9.  When the first Active row has a Start that does not read as a
    timestamp, [build_active_entry] returns the empty record, as it does
    for an empty Active sheet. *)
Theorem active_entry_hidden_when_corrupt (row : ActiveRow)
    (rest : list ActiveRow) :
  to_datetime (act_Start row) = None ->
  build_active_entry (row :: rest) = [] /\
  build_active_entry (row :: rest) = build_active_entry [].
Proof.
  intro Hstart. unfold build_active_entry. rewrite Hstart. split; reflexivity.
Qed.

End SessionFacts.

(** ** Adding a definition *)

Section DefinitionFacts.

Context {library : Library}.
Import PyStr PyStrFacts.

Lemma filter_not_empty {A : Type} (f : A -> bool) (l : list A) (x : A) :
  In x l -> f x = true -> empty (filter f l) = false.
Proof.
  intros Hin Hf.
  assert (H : In x (filter f l)) by (apply filter_In; auto).
  destruct (filter f l); [contradiction | reflexivity].
Qed.

(** The duplicate test of [add_project_activity], as a property of the
    sheet: some row prints, lower-cased, as the trimmed and lower-cased
    names of the request. *)
Lemma add_project_activity_duplicate (wb : Workbook) (project activity : string)
    (r : ProjectRow) :
  strip project <> "" ->
  strip activity <> "" ->
  In r (Projects wb) ->
  lower (astype_str (prj_Project r)) = lower (strip project) ->
  lower (astype_str (prj_Activity r)) = lower (strip activity) ->
  add_project_activity wb project activity = ((false, DuplicateDefinition), None).
Proof.
  intros Hp Ha Hin HP HA. unfold add_project_activity.
  apply truthy_nonempty in Hp, Ha. rewrite Hp, Ha. simpl.
  set (same_project := fun r0 : ProjectRow =>
         String.eqb (lower (astype_str (prj_Project r0))) (lower (strip project))).
  set (same_activity := fun r0 : ProjectRow =>
         String.eqb (lower (astype_str (prj_Activity r0))) (lower (strip activity))).
  assert (H1 : empty (Projects wb) = false)
    by (destruct (Projects wb); [contradiction | reflexivity]).
  assert (H2 : In r (filter same_project (Projects wb))).
  { apply filter_In. split; [exact Hin|].
    unfold same_project. rewrite HP. apply String.eqb_refl. }
  assert (H3 : empty (filter same_project (Projects wb)) = false)
    by (destruct (filter same_project (Projects wb)); [contradiction | reflexivity]).
  assert (H4 : empty (filter same_activity (filter same_project (Projects wb)))
               = false).
  { apply (filter_not_empty _ _ r H2).
    unfold same_activity. rewrite HA. apply String.eqb_refl. }
  rewrite H1, H3, H4. reflexivity.
Qed.

(** Blank names are turned down before the sheet is looked at. *)
Lemma add_project_activity_blank (wb : Workbook) (project activity : string) :
  strip project = "" \/ strip activity = "" ->
  add_project_activity wb project activity = ((false, NamesRequired), None).
Proof.
  intro H. unfold add_project_activity.
  destruct H as [-> | ->]; simpl; [reflexivity|].
  rewrite orb_true_r. reflexivity.
Qed.

(** C8.  Whatever the Projects sheet and the request, when an existing
    definition matches the trimmed names of the request on both fields
    without regard to case, [add_project_activity] fails and writes
    nothing, and its message is the already-defined one whenever the names
    are not blank (blank names are turned down first, with the
    names-required message); so adding Work / Email to a new workbook and
    then work / EMAIL fails the second time with the already-defined
    message. *)
Theorem add_definition_rejects_duplicate :
  (forall (wb : Workbook) (project activity : string) (r : ProjectRow),
      In r (Projects wb) ->
      lower (astype_str (prj_Project r)) = lower (strip project) ->
      lower (astype_str (prj_Activity r)) = lower (strip activity) ->
      fst (fst (add_project_activity wb project activity)) = false /\
      snd (add_project_activity wb project activity) = None /\
      (strip project <> "" -> strip activity <> "" ->
       add_project_activity wb project activity
       = ((false, DuplicateDefinition), None))) /\
  (let first := add_project_activity new_workbook "Work" "Email" in
   let wb1 := stored new_workbook (snd first) in
   fst (fst first) = true /\
   Projects wb1 = [mkProject (Str "Work") (Str "Email")] /\
   add_project_activity wb1 "work" "EMAIL"
   = ((false, DuplicateDefinition), None)).
Proof.
  split.
  2:{ cbv zeta.
      assert (Ework : strip "Work" = "Work")
        by (rewrite strip_ascii by reflexivity; reflexivity).
      assert (Eemail : strip "Email" = "Email")
        by (rewrite strip_ascii by reflexivity; reflexivity).
      assert (Ework' : strip "work" = "work")
        by (rewrite strip_ascii by reflexivity; reflexivity).
      assert (Eemail' : strip "EMAIL" = "EMAIL")
        by (rewrite strip_ascii by reflexivity; reflexivity).
      assert (Efirst : add_project_activity new_workbook "Work" "Email"
                       = ((true, "Added 'Email' to Work."),
                          Some (mkWorkbook [] [mkProject (Str "Work") (Str "Email")]
                                           []))).
      { unfold add_project_activity. rewrite Ework, Eemail. reflexivity. }
      rewrite Efirst. simpl. split; [reflexivity|]. split; [reflexivity|].
      apply (add_project_activity_duplicate _ _ _
               (mkProject (Str "Work") (Str "Email"))).
      - rewrite Ework'. discriminate.
      - rewrite Eemail'. discriminate.
      - left. reflexivity.
      - simpl. rewrite Ework', !lower_ascii by reflexivity. reflexivity.
      - simpl. rewrite Eemail', !lower_ascii by reflexivity. reflexivity. }
  intros wb project activity r Hin HP HA.
  assert (Hdup : strip project <> "" -> strip activity <> "" ->
                 add_project_activity wb project activity
                 = ((false, DuplicateDefinition), None))
    by (intros; apply (add_project_activity_duplicate wb project activity r);
        assumption).
  destruct (string_dec (strip project) "") as [Ep|Np].
  { rewrite add_project_activity_blank by (left; exact Ep).
    repeat split. intros Np. contradiction. }
  destruct (string_dec (strip activity) "") as [Ea|Na].
  { rewrite add_project_activity_blank by (right; exact Ea).
    repeat split. intros _ Na. contradiction. }
  rewrite (Hdup Np Na). repeat split.
Qed.

End DefinitionFacts.

(** ** Duration formatting *)



(** On a negative number of seconds the hours are negative, so not zero,
    and the hours form is chosen. *)
Lemma render_seconds_negative (total_seconds : Z) :
  total_seconds < 0 ->
  render_seconds total_seconds =
  PyStr.of_int_02d (total_seconds / 3600) ++ "h " ++
  PyStr.of_int_02d (total_seconds mod 3600 / 60) ++ "m".
Proof.
  intro Hs. unfold render_seconds.
  assert (Hh : total_seconds / 3600 < 0) by (apply Z.div_lt_upper_bound; lia).
  destruct (Z.eqb_spec (total_seconds / 3600) 0); [lia | reflexivity].
Qed.

Section FormatFacts.

Context {library : Library}.

(** A duration of a whole number of seconds is rendered as that number. *)
Lemma format_duration_whole (minutes : Q) (n : Z) :
  (minutes * (60 # 1) == inject_Z n)%Q -> Z.abs n <= 2 ^ 31 ->
  format_duration minutes = Some (render_seconds n) /\
  format_duration_spec minutes = Some (render_seconds_spec n).
Proof.
  intros E Hn. unfold format_duration, format_duration_spec.
  rewrite (whole_seconds_exact minutes n E Hn). split; reflexivity.
Qed.

(** Minus one minute is minus sixty seconds: minus one hour and 59 minutes
    in floor division, where the wording of the specification gives the
    minutes form. *)
Lemma format_duration_negative :
  format_duration (-1 # 1) = Some "-1h 59m" /\
  format_duration_spec (-1 # 1) = Some "59m 00s".
Proof.
  apply (format_duration_whole (-1 # 1) (-60)); [reflexivity | discriminate].
Qed.


End FormatFacts.

(** * The properties at work on the example data *)


(** A second Start while the first session runs. *)
Lemma start_while_running_witness :
  Running running_workbook /\
  handle_start running_workbook (T0 + 1) "Work" "Email" "again"
  = (AlreadyRunning, None).
Proof.
  split; [reflexivity|].
  apply (start_while_running running_workbook); reflexivity.
Defined.

(** A Stop with no session. *)
Lemma stop_while_idle_witness :
  Idle idle_workbook /\
  handle_stop idle_workbook T0 "done" = (NoActiveSession, None).
Proof.
  split; [reflexivity|].
  apply (stop_while_idle idle_workbook); reflexivity.
Defined.

(** A Stop on the session with the empty Start cell: the one logged entry
    stays alone and the session is gone. *)
Lemma stop_corrupt_session_witness :
  to_datetime (act_Start (mkActive (Str "Work") (Str "Email") NA NA)) = None /\
  fst (handle_stop corrupt_workbook T0 "done") = CorruptSession /\
  List.length
    (Log (stored corrupt_workbook (snd (handle_stop corrupt_workbook T0 "done"))))
  = 1%nat /\
  Idle (stored corrupt_workbook (snd (handle_stop corrupt_workbook T0 "done"))).
Proof.
  split; [reflexivity|].
  destruct (stop_corrupt_session corrupt_workbook T0 "done" _ [] eq_refl eq_refl)
    as [Hstop [Hlen Hidle]].
  split; [rewrite Hstop; reflexivity|].
  split; [exact Hlen | exact Hidle].
Defined.

(** A session started at 23:59 and stopped at 00:01 is dated on the day it
    started, not on the day it ended. *)
Lemma stop_dates_entry_by_start_witness :
  date_of (midnight 19724 - 60 * ns_per_second) = 19723 /\
  date_of (midnight 19724 + 60 * ns_per_second) = 19724 /\
  exists entry : LogRow,
    Log (stored late_workbook
           (snd (handle_stop late_workbook
                   (midnight 19724 + 60 * ns_per_second) "")))
    = [entry] /\
    log_Date entry = Date 19723 /\
    log_End entry = Time (midnight 19724 + 60 * ns_per_second).
Proof.
  split; [reflexivity|]. split; [reflexivity|].
  destruct (stop_dates_entry_by_start late_workbook
              (midnight 19724 + 60 * ns_per_second) "" _ []
              (midnight 19724 - 60 * ns_per_second) eq_refl eq_refl)
    as [entry [Hlog [Hdate [_ Hend]]]].
  exists entry. split; [exact Hlog | split; [exact Hdate | exact Hend]].
Defined.

Lemma active_entry_hidden_when_corrupt_witness :
  to_datetime (act_Start (mkActive (Str "Work") (Str "Email") NA NA)) = None /\
  build_active_entry (Active corrupt_workbook) = [] /\
  build_active_entry (Active running_workbook) <> [].
Proof.
  split; [reflexivity|].
  split; [|discriminate].
  exact (proj1 (active_entry_hidden_when_corrupt
                  (mkActive (Str "Work") (Str "Email") NA NA) [] eq_refl)).
Defined.

(** The sheet [sample_projects] maps b to x, y: padding stripped, the
    repeated y kept once, the blank cells nowhere. *)
Lemma build_project_map_clean_witness :
  build_project_map sample_projects
  = [("a", ["z"]); ("b", ["x"; "y"]); ("c", [])] /\
  strip "b" <> "" /\
  NoDup ["x"; "y"] /\
  StronglySorted (fun a b => String.ltb a b = true) ["x"; "y"].
Proof.
  split; [reflexivity|].
  assert (Hin : In ("b", ["x"; "y"]) (build_project_map sample_projects))
    by (right; left; reflexivity).
  destruct (proj1 (proj2 (build_project_map_clean sample_projects))
              "b" ["x"; "y"] Hin)
    as [Hkey [_ [Hnodup Hsorted]]].
  split; [exact Hkey | split; [exact Hnodup | exact Hsorted]].
Defined.

(** A request that differs from the stored definition in case and padding
    only is turned down. *)
Lemma add_definition_rejects_duplicate_witness :
  strip " work " <> "" /\
  strip "EMAIL" <> "" /\
  add_project_activity idle_workbook " work " "EMAIL"
  = ((false, DuplicateDefinition), None).
Proof.
  split; [discriminate|]. split; [discriminate|].
  apply (proj1 add_definition_rejects_duplicate idle_workbook " work " "EMAIL"
           (mkProject (Str "Work") (Str "Email")));
    try discriminate; try reflexivity.
  left. reflexivity.
Defined.



(** The daily list as displayed for [sample_log]: the later day first, the
    30 and 45 minutes of the first day in one bucket. *)
Example daily_of_sample_log :
  option_map (map snd) (build_summary_daily (normalize_log_dataframe sample_log))
  = Some ["1m 00s"; "01h 15m"].
Proof. reflexivity. Qed.

(** An empty log and an empty Projects sheet give an empty daily list and
    an empty mapping. *)
Example empty_workbook_views :
  build_summary_daily (normalize_log_dataframe (Log new_workbook)) = Some [] /\
  build_project_map (Projects new_workbook) = [] /\
  build_active_entry (Active new_workbook) = [].
Proof. repeat split. Qed.

(** * More of the engine *)

(** ** Looking a pair up in the taxonomy *)

Section LookupFacts.

Context {library : Library}.
Import PyStr PyStrFacts.

Lemma mem_In (x : string) (l : list string) : mem x l = true <-> In x l.
Proof.
  unfold mem. rewrite existsb_exists. split.
  - intros [y [Hy E]]. apply String.eqb_eq in E. subst. exact Hy.
  - intro H. exists x. split; [exact H | apply String.eqb_refl].
Qed.

Lemma dict_get_project_items (cleaned : list (string * string))
    (keys : list string) (k : string) :
  dict_get (project_items cleaned keys) k =
  if truthy k && mem k keys
  then Some (sorted (set_of (filter truthy (group_activities cleaned k))))
  else None.
Proof.
  induction keys as [|k0 keys IH]; simpl.
  - rewrite andb_false_r. reflexivity.
  - destruct (String.eqb_spec k k0) as [E|NE].
    + subst k0. destruct (truthy k) eqn:Ek; simpl.
      * rewrite String.eqb_refl. reflexivity.
      * exact IH.
    + destruct (truthy k0); simpl.
      * destruct (String.eqb_spec k0 k) as [E|_]; [congruence | exact IH].
      * exact IH.
Qed.

Lemma group_activities_in (cleaned : list (string * string)) (p a : string) :
  In a (group_activities cleaned p) <-> In (p, a) cleaned.
Proof.
  unfold group_activities. rewrite in_map_iff. split.
  - intros [[p' a'] [E H]]. simpl in E. subst a'.
    apply filter_In in H. destruct H as [H Hp]. simpl in Hp.
    apply String.eqb_eq in Hp. subst. exact H.
  - intro H. exists (p, a). split; [reflexivity|].
    apply filter_In. split; [exact H | apply String.eqb_refl].
Qed.

(** The lookup [handle_start] makes, in terms of the sheet. *)
Lemma project_map_lookup (projects_df : list ProjectRow) (p a : string) :
  (exists activities,
      dict_get (build_project_map projects_df) p = Some activities /\
      mem a activities = true) <->
  (p <> "" /\ a <> "" /\
   exists r, In r projects_df /\ cleaned_project r = (p, a)).
Proof.
  rewrite build_project_map_items, dict_get_project_items.
  set (cleaned := map cleaned_project projects_df).
  split.
  - intros [activities [Hget Hmem]].
    destruct (truthy p) eqn:Hp; simpl in Hget; [|discriminate].
    destruct (mem p _); [|discriminate].
    injection Hget as <-.
    apply mem_In, sorted_set_in, filter_In in Hmem. destruct Hmem as [Hin Ha].
    apply group_activities_in, in_map_iff in Hin. destruct Hin as [r [E Hr]].
    split; [apply truthy_nonempty, Hp|].
    split; [apply truthy_nonempty, Ha|]. exists r. auto.
  - intros [Hp [Ha [r [Hr E]]]].
    assert (Hin : In (p, a) cleaned)
      by (rewrite <- E; apply in_map, Hr).
    apply truthy_nonempty in Hp, Ha. rewrite Hp. simpl.
    assert (Hkey : mem p (sorted (set_of (map fst cleaned))) = true).
    { apply mem_In, sorted_set_in. change p with (fst (p, a)).
      apply in_map, Hin. }
    rewrite Hkey. eexists. split; [reflexivity|].
    apply mem_In, sorted_set_in, filter_In. split; [|exact Ha].
    apply group_activities_in, Hin.
Qed.

(** X1.  A pair of names is found in the mapping [build_project_map]
    returns, the project as a key and the activity in its list, exactly
    when neither name is empty and some row of the sheet reads, filled,
    printed and stripped, as that pair. *)
Theorem project_map_holds_defined_pairs (projects_df : list ProjectRow)
    (p a : string) :
  (exists activities,
      dict_get (build_project_map projects_df) p = Some activities /\
      In a activities) <->
  (p <> "" /\ a <> "" /\
   exists r, In r projects_df /\
             strip (astype_str (fillna_empty (prj_Project r))) = p /\
             strip (astype_str (fillna_empty (prj_Activity r))) = a).
Proof.
  split.
  - intros [activities [Hget Hin]].
    destruct (proj1 (project_map_lookup projects_df p a)) as [Hp [Ha [r [Hr E]]]].
    { exists activities. split; [exact Hget | apply mem_In, Hin]. }
    split; [exact Hp|]. split; [exact Ha|]. exists r.
    unfold cleaned_project in E. injection E as E1 E2. auto.
  - intros [Hp [Ha [r [Hr [E1 E2]]]]].
    destruct (proj2 (project_map_lookup projects_df p a))
      as [activities [Hget Hmem]].
    { split; [exact Hp|]. split; [exact Ha|]. exists r.
      split; [exact Hr|]. unfold cleaned_project. rewrite E1, E2. reflexivity. }
    exists activities. split; [exact Hget | apply mem_In, Hmem].
Qed.

End LookupFacts.

(** ** The project names of the index page *)

Section SortedFacts.

Variable A : Type.
Variable leb : A -> A -> bool.

(** Sorting a list that is in order returns it. *)
Lemma sort_with_sorted_id (l : list A) :
  Sorted (fun a b => leb a b = true) l -> sort_with leb l = l.
Proof.
  induction 1 as [|x l Hs IH Hhd]; simpl; [reflexivity|].
  fold (sort_with leb l). rewrite IH.
  destruct Hhd as [|y l' Hxy]; simpl; [reflexivity|].
  rewrite Hxy. reflexivity.
Qed.

Lemma StronglySorted_filter (R : A -> A -> Prop) (f : A -> bool) (l : list A) :
  StronglySorted R l -> StronglySorted R (filter f l).
Proof.
  induction 1 as [|x l Hs IH Hall]; simpl; [constructor|].
  destruct (f x); [|exact IH].
  constructor; [exact IH|].
  rewrite Forall_forall in *. intros y Hy.
  apply filter_In in Hy. apply Hall, Hy.
Qed.

Lemma StronglySorted_impl (R1 R2 : A -> A -> Prop) (l : list A) :
  (forall a b, R1 a b -> R2 a b) ->
  StronglySorted R1 l -> StronglySorted R2 l.
Proof.
  intros Himp. induction 1 as [|x l Hs IH Hall]; constructor.
  - exact IH.
  - rewrite Forall_forall in *. intros y Hy. apply Himp, Hall, Hy.
Qed.

End SortedFacts.

Section ProjectNamesFacts.

Context {library : Library}.
Import PyStr PyStrFacts.

(** X2.  The keys of the mapping [build_project_map] returns are in
    strictly ascending order as inserted, so the sorted list of project
    names the index page shows is the key list itself. *)
Theorem project_names_are_the_keys (projects_df : list ProjectRow) :
  StronglySorted (fun a b => String.ltb a b = true)
                 (map fst (build_project_map projects_df)) /\
  project_names projects_df = map fst (build_project_map projects_df).
Proof.
  assert (Hstrict : StronglySorted (fun a b => String.ltb a b = true)
                      (map fst (build_project_map projects_df))).
  { rewrite build_project_map_items, project_items_keys.
    apply StronglySorted_filter, sorted_strictly_ascending, NoDup_nodup. }
  split; [exact Hstrict|].
  unfold project_names, sorted. apply sort_with_sorted_id.
  apply StronglySorted_Sorted.
  apply (StronglySorted_impl _ (fun a b => String.ltb a b = true));
    [|exact Hstrict].
  intros a b H. unfold String.ltb in H. unfold String.leb.
  destruct (String.compare a b); congruence.
Qed.

End ProjectNamesFacts.

(** ** What the handlers write *)

Section HandlerFacts.

Context {library : Library}.
Import PyStr PyStrFacts.

Lemma filter_nil {A : Type} (f : A -> bool) (l : list A) :
  (forall x, In x l -> f x = false) -> filter f l = [].
Proof.
  induction l as [|x l IH]; simpl; intro H; [reflexivity|].
  rewrite (H x) by (left; reflexivity).
  apply IH. intros y Hy. apply H. right. exact Hy.
Qed.

Lemma map_fixed {A : Type} (f : A -> A) (l : list A) :
  Forall (fun x => f x = x) l -> map f l = l.
Proof.
  induction 1 as [|x l Hx _ IH]; simpl; [reflexivity|].
  rewrite Hx, IH. reflexivity.
Qed.

Lemma handle_start_accepts (wb : Workbook) (now : Timestamp)
    (form_project form_activity form_notes : string) :
  startable wb form_project form_activity ->
  handle_start wb now form_project form_activity form_notes =
  (TimerStarted (strip form_project) (strip form_activity),
   Some (started wb now form_project form_activity form_notes)).
Proof.
  intros [Hidle [Hp [Ha Hrow]]].
  destruct (proj2 (project_map_lookup (Projects wb) _ _)
              (conj Hp (conj Ha Hrow))) as [activities [Hget Hmem]].
  unfold handle_start, Idle in *. rewrite Hidle. simpl.
  apply truthy_nonempty in Hp, Ha. rewrite Hp, Ha. simpl.
  rewrite Hget, Hmem. simpl. rewrite write_workbook_sheets. reflexivity.
Qed.

Lemma handle_start_refuses (wb : Workbook) (now : Timestamp)
    (form_project form_activity form_notes : string) :
  ~ startable wb form_project form_activity ->
  category (fst (handle_start wb now form_project form_activity form_notes))
  = "error" /\
  snd (handle_start wb now form_project form_activity form_notes) = None.
Proof.
  intro Hno. unfold handle_start.
  destruct (empty (Active wb)) eqn:Hidle; simpl; [|split; reflexivity].
  destruct (truthy (strip form_project)) eqn:Hp; simpl; [|split; reflexivity].
  destruct (truthy (strip form_activity)) eqn:Ha; simpl; [|split; reflexivity].
  destruct (dict_get _ _) as [activities|] eqn:Hget; [|split; reflexivity].
  destruct (mem _ activities) eqn:Hmem; simpl; [|split; reflexivity].
  exfalso. apply Hno.
  destruct (proj1 (project_map_lookup (Projects wb) _ _)
              (ex_intro _ activities (conj Hget Hmem))) as [Hp' [Ha' Hrow]].
  repeat split; assumption.
Qed.

Lemma startable_dec (wb : Workbook) (form_project form_activity : string) :
  startable wb form_project form_activity \/
  ~ startable wb form_project form_activity.
Proof.
  unfold startable, Idle.
  destruct (empty (Active wb)); [|right; intros [H _]; discriminate].
  destruct (string_dec (strip form_project) "") as [Ep|Np];
    [right; intros [_ [H _]]; contradiction|].
  destruct (string_dec (strip form_activity) "") as [Ea|Na];
    [right; intros [_ [_ [H _]]]; contradiction|].
  destruct (dict_get (build_project_map (Projects wb)) (strip form_project))
    as [activities|] eqn:Hget.
  - destruct (mem (strip form_activity) activities) eqn:Hmem.
    + left. repeat split; try assumption.
      apply (proj1 (project_map_lookup (Projects wb) _ _)).
      exists activities. auto.
    + right. intros [_ [Hp [Ha Hrow]]].
      destruct (proj2 (project_map_lookup (Projects wb) _ _)
                  (conj Hp (conj Ha Hrow))) as [acts [Hget' Hmem']].
      congruence.
  - right. intros [_ [Hp [Ha Hrow]]].
    destruct (proj2 (project_map_lookup (Projects wb) _ _)
                (conj Hp (conj Ha Hrow))) as [acts [Hget' Hmem']].
    congruence.
Qed.

(** The three ways of [handle_stop]. *)
Lemma handle_stop_cases (wb : Workbook) (now : Timestamp) (form_notes : string) :
  (Active wb = [] /\ handle_stop wb now form_notes = (NoActiveSession, None)) \/
  (exists active_entry rest,
      Active wb = active_entry :: rest /\
      to_datetime (act_Start active_entry) = None /\
      handle_stop wb now form_notes =
      (CorruptSession,
       Some (mkWorkbook (map log_row_to_write (Log wb)) (Projects wb) []))) \/
  (exists active_entry rest start_dt,
      Active wb = active_entry :: rest /\
      to_datetime (act_Start active_entry) = Some start_dt /\
      handle_stop wb now form_notes =
      (SessionSaved,
       Some
         (mkWorkbook
            (map log_row_to_write (Log wb) ++
             [mkLog (Date (date_of start_dt))
                    (act_Project active_entry) (act_Activity active_entry)
                    (Time start_dt) (Time now)
                    (Num (rounded_minutes start_dt now))
                    (if truthy (strip form_notes) then Str (strip form_notes)
                     else act_Notes active_entry)])%list
            (Projects wb) []))).
Proof.
  destruct (Active wb) as [|active_entry rest] eqn:Hactive.
  - left. split; [reflexivity|]. unfold handle_stop. rewrite Hactive. reflexivity.
  - right. destruct (to_datetime (act_Start active_entry)) as [start_dt|] eqn:Hstart.
    + right. exists active_entry, rest, start_dt.
      split; [reflexivity|]. split; [exact Hstart|].
      apply (handle_stop_running wb now form_notes _ _ _ Hactive Hstart).
    + left. exists active_entry, rest.
      split; [reflexivity|]. split; [exact Hstart|].
      unfold handle_stop. rewrite Hactive, Hstart, write_workbook_sheets.
      reflexivity.
Qed.

(** The two ways of [add_project_activity] past the blank test. *)
Lemma add_project_activity_new (wb : Workbook) (project activity : string) :
  strip project <> "" ->
  strip activity <> "" ->
  ~ In (request_key project activity) (map definition_key (Projects wb)) ->
  add_project_activity wb project activity =
  ((true, "Added '" ++ strip activity ++ "' to " ++ strip project ++ "."),
   Some (mkWorkbook (map log_row_to_write (Log wb))
                    (Projects wb ++ [mkProject (Str (strip project))
                                               (Str (strip activity))])%list
                    (map active_row_to_write (Active wb)))).
Proof.
  intros Hp Ha Hnew. unfold add_project_activity.
  apply truthy_nonempty in Hp, Ha. rewrite Hp, Ha. simpl.
  rewrite write_workbook_sheets.
  set (same_project := fun r : ProjectRow =>
         String.eqb (lower (astype_str (prj_Project r))) (lower (strip project))).
  set (same_activity := fun r : ProjectRow =>
         String.eqb (lower (astype_str (prj_Activity r))) (lower (strip activity))).
  assert (E : filter same_activity (filter same_project (Projects wb)) = []).
  { apply filter_nil. intros r Hr. apply filter_In in Hr. destruct Hr as [Hr HP].
    destruct (same_activity r) eqn:HA; [|reflexivity].
    exfalso. apply Hnew. apply in_map_iff. exists r. split; [|exact Hr].
    unfold same_project, same_activity in *.
    apply String.eqb_eq in HP, HA.
    unfold definition_key, request_key. rewrite HP, HA. reflexivity. }
  rewrite E. simpl. rewrite !andb_false_r. reflexivity.
Qed.

Lemma add_project_activity_known (wb : Workbook) (project activity : string) :
  strip project <> "" ->
  strip activity <> "" ->
  In (request_key project activity) (map definition_key (Projects wb)) ->
  add_project_activity wb project activity = ((false, DuplicateDefinition), None).
Proof.
  intros Hp Ha Hin. apply in_map_iff in Hin. destruct Hin as [r [E Hr]].
  unfold definition_key, request_key in E. injection E as E1 E2.
  apply (add_project_activity_duplicate wb project activity r); assumption.
Qed.

Lemma request_key_dec (wb : Workbook) (project activity : string) :
  In (request_key project activity) (map definition_key (Projects wb)) \/
  ~ In (request_key project activity) (map definition_key (Projects wb)).
Proof.
  destruct (in_dec eq_dec_names (request_key project activity)
              (map definition_key (Projects wb))); auto.
Qed.

End HandlerFacts.

(** ** One request *)

Section ServeFacts.

Context {library : Library}.
Import PyStr PyStrFacts.

(** Every request does one of five things to the store. *)
Lemma serve_cases (wb : Workbook) (now : Timestamp) (req : Request) :
  (fst (serve wb now req) <> SessionSaved /\ snd (serve wb now req) = None) \/
  (exists p a n,
      startable wb p a /\
      fst (serve wb now req) <> SessionSaved /\
      snd (serve wb now req) = Some (started wb now p a n)) \/
  (exists active_entry rest,
      Active wb = active_entry :: rest /\
      to_datetime (act_Start active_entry) = None /\
      fst (serve wb now req) <> SessionSaved /\
      snd (serve wb now req) =
      Some (mkWorkbook (map log_row_to_write (Log wb)) (Projects wb) [])) \/
  (exists active_entry rest start_dt notes,
      Active wb = active_entry :: rest /\
      to_datetime (act_Start active_entry) = Some start_dt /\
      fst (serve wb now req) = SessionSaved /\
      snd (serve wb now req) = Some (stopped wb now notes active_entry start_dt)) \/
  (exists p a,
      strip p <> "" /\ strip a <> "" /\
      ~ In (request_key p a) (map definition_key (Projects wb)) /\
      fst (serve wb now req) <> SessionSaved /\
      snd (serve wb now req) = Some (added wb p a)).
Proof.
  destruct req as [action project activity notes | new_project new_activity];
    simpl.
  - unfold index_post.
    destruct action as [a|]; [|left; split; [discriminate | reflexivity]].
    destruct (String.eqb a "start").
    { destruct (startable_dec wb project activity) as [Hyes|Hno].
      - right. left. exists project, activity, notes.
        rewrite (handle_start_accepts wb now project activity notes Hyes).
        split; [exact Hyes|]. split; [discriminate | reflexivity].
      - left. destruct (handle_start_refuses wb now project activity notes Hno)
          as [Hcat Hnone].
        split; [|exact Hnone]. intro E. rewrite E in Hcat. discriminate. }
    destruct (String.eqb a "stop"); [|left; split; [discriminate | reflexivity]].
    destruct (handle_stop_cases wb now notes)
      as [[_ E] | [[e [rest [Ha [Hs E]]]] | [e [rest [start_dt [Ha [Hs E]]]]]]];
      rewrite E.
    + left. split; [discriminate | reflexivity].
    + right. right. left. exists e, rest.
      repeat split; try assumption. discriminate.
    + right. right. right. left. exists e, rest, start_dt, notes.
      repeat split; assumption.
  - unfold add_project.
    destruct (string_dec (strip new_project) "") as [Ep|Np];
      [rewrite add_project_activity_blank by (left; exact Ep);
       left; split; [discriminate | reflexivity]|].
    destruct (string_dec (strip new_activity) "") as [Ea|Na];
      [rewrite add_project_activity_blank by (right; exact Ea);
       left; split; [discriminate | reflexivity]|].
    destruct (request_key_dec wb new_project new_activity) as [Hin|Hnew].
    + rewrite (add_project_activity_known wb _ _ Np Na Hin).
      left. split; [discriminate | reflexivity].
    + rewrite (add_project_activity_new wb _ _ Np Na Hnew).
      right. right. right. right. exists new_project, new_activity.
      repeat split; try assumption. discriminate.
Qed.

End ServeFacts.

(** ** The session machine, request by request *)

Section MachineFacts.

Context {library : Library}.
Import PyStr PyStrFacts.

(** X3.  Start succeeds exactly when no timer is running, both names are
    non-empty after trimming and some row of the Projects sheet reads,
    filled, printed and stripped, as the trimmed pair.  It then writes the
    Log and the Projects it read and one Active row with the trimmed
    fields and the clock reading; otherwise it flashes an error and writes
    nothing. *)
Theorem start_succeeds_exactly_when (wb : Workbook) (now : Timestamp)
    (form_project form_activity form_notes : string) :
  (category (fst (handle_start wb now form_project form_activity form_notes))
   = "success" <->
   Idle wb /\ strip form_project <> "" /\ strip form_activity <> "" /\
   exists r, In r (Projects wb) /\
             cleaned_project r = (strip form_project, strip form_activity)) /\
  (category (fst (handle_start wb now form_project form_activity form_notes))
   = "success" ->
   snd (handle_start wb now form_project form_activity form_notes) =
   Some (mkWorkbook (map log_row_to_write (Log wb)) (Projects wb)
           [mkActive (Str (strip form_project)) (Str (strip form_activity))
                     (Str (strip form_notes)) (Time now)])) /\
  (category (fst (handle_start wb now form_project form_activity form_notes))
   <> "success" ->
   category (fst (handle_start wb now form_project form_activity form_notes))
   = "error" /\
   snd (handle_start wb now form_project form_activity form_notes) = None).
Proof.
  fold (startable wb form_project form_activity).
  destruct (startable_dec wb form_project form_activity) as [Hyes|Hno].
  - rewrite (handle_start_accepts wb now _ _ form_notes Hyes). simpl.
    split; [split; [intros _; exact Hyes | reflexivity]|].
    split; [reflexivity | intro H; contradiction].
  - destruct (handle_start_refuses wb now _ _ form_notes Hno) as [Hcat Hnone].
    rewrite Hcat, Hnone.
    split; [split; [discriminate | intro H; contradiction]|].
    split; [discriminate | auto].
Qed.

(** X4.  Whatever workbook a Stop finds, the machine is idle afterwards,
    so a Stop that follows it fails with the no-running-timer message and
    writes nothing. *)
Theorem stop_leaves_idle (wb : Workbook) (now now' : Timestamp)
    (form_notes form_notes' : string) :
  Idle (stored wb (snd (handle_stop wb now form_notes))) /\
  handle_stop (stored wb (snd (handle_stop wb now form_notes))) now' form_notes'
  = (NoActiveSession, None).
Proof.
  assert (H : Active (stored wb (snd (handle_stop wb now form_notes))) = []).
  { destruct (handle_stop_cases wb now form_notes)
      as [[Ha E] | [[e [rest [_ [_ E]]]] | [e [rest [start_dt [_ [_ E]]]]]]];
      rewrite E; simpl; [exact Ha | reflexivity | reflexivity]. }
  split.
  - unfold Idle. rewrite H. reflexivity.
  - unfold handle_stop at 1. rewrite H. reflexivity.
Qed.

(** X5.  After a Start that succeeded the machine is running: the running
    entry shown carries the trimmed project, activity and notes of the
    request, and a Start that follows fails with the already-running
    message and writes nothing. *)
Theorem start_leaves_running (wb : Workbook) (now now' : Timestamp)
    (form_project form_activity form_notes : string)
    (form_project' form_activity' form_notes' : string) :
  category (fst (handle_start wb now form_project form_activity form_notes))
  = "success" ->
  let wb' :=
    stored wb (snd (handle_start wb now form_project form_activity form_notes)) in
  Running wb' /\
  build_active_entry (Active wb') =
    [("project", strip form_project); ("activity", strip form_activity);
     ("notes", strip form_notes);
     ("start_display", strftime "%b %d, %Y %I:%M %p" now);
     ("start_iso", isoformat now)] /\
  handle_start wb' now' form_project' form_activity' form_notes'
  = (AlreadyRunning, None).
Proof.
  intros Hok wb'. subst wb'.
  apply handle_start_success in Hok. destruct Hok as [_ ->]. simpl stored.
  repeat split.
Qed.

(** X6.  No request leaves more than one running session: when the Active
    sheet read has at most one row, so has the Active sheet in the store
    after the request. *)
Theorem serve_keeps_one_session (wb : Workbook) (now : Timestamp)
    (req : Request) :
  (List.length (Active wb) <= 1)%nat ->
  (List.length (Active (stored wb (snd (serve wb now req)))) <= 1)%nat.
Proof.
  intro Hone.
  destruct (serve_cases wb now req)
    as [[_ E] | [[p [a [n [_ [_ E]]]]] | [[e [rest [_ [_ [_ E]]]]]
       | [[e [rest [s [notes [_ [_ [_ E]]]]]]] | [p [a [_ [_ [_ [_ E]]]]]]]]]];
    rewrite E; simpl; try lia.
  rewrite length_map. exact Hone.
Qed.

(** X7.  The Log only grows, and only by a saved Stop: a request that
    flashes the session-saved message leaves one row more in the Log than
    it read, every other request leaves as many. *)
Theorem log_grows_only_by_saved_stop (wb : Workbook) (now : Timestamp)
    (req : Request) :
  (fst (serve wb now req) = SessionSaved ->
   List.length (Log (stored wb (snd (serve wb now req))))
   = S (List.length (Log wb))) /\
  (fst (serve wb now req) <> SessionSaved ->
   List.length (Log (stored wb (snd (serve wb now req))))
   = List.length (Log wb)).
Proof.
  destruct (serve_cases wb now req)
    as [[F E] | [[p [a [n [_ [F E]]]]] | [[e [rest [_ [_ [F E]]]]]
       | [[e [rest [s [notes [_ [_ [F E]]]]]]] | [p [a [_ [_ [_ [F E]]]]]]]]]];
    rewrite E; simpl; rewrite ?length_app, ?length_map; simpl;
    split; intro H; try contradiction; try reflexivity; lia.
Qed.

(** X8.  No request edits or removes a definition: the Projects sheet
    after a request is the one read, followed by at most one new row. *)
Theorem definitions_are_append_only (wb : Workbook) (now : Timestamp)
    (req : Request) :
  exists new_rows,
    Projects (stored wb (snd (serve wb now req)))
    = (Projects wb ++ new_rows)%list /\
    (List.length new_rows <= 1)%nat /\
    (forall action project activity notes,
        req = PostIndex action project activity notes -> new_rows = []).
Proof.
  destruct (serve_cases wb now req)
    as [[_ E] | [[p [a [n [_ [_ E]]]]] | [[e [rest [_ [_ [_ E]]]]]
       | [[e [rest [s [notes [_ [_ [_ E]]]]]]] | [p [a [_ [_ [_ [_ E]]]]]]]]]];
    try (exists []; rewrite E; simpl; rewrite app_nil_r;
         split; [reflexivity | split; [lia | reflexivity]]).
  exists [mkProject (Str (strip p)) (Str (strip a))].
  rewrite E. simpl. split; [reflexivity|]. split; [lia|].
  intros action project activity notes ->.
  apply (f_equal (fun o : StoreWrite =>
                    match o with
                    | Some w => List.length (Projects w)
                    | None => List.length (Projects wb)
                    end)) in E.
  simpl in E. rewrite length_app in E. simpl in E.
  unfold index_post in E.
  destruct action as [act|]; [|simpl in E; lia].
  destruct (String.eqb act "start").
  - destruct (startable_dec wb project activity) as [Hyes|Hno].
    + rewrite (handle_start_accepts wb now _ _ notes Hyes) in E.
      simpl in E. lia.
    + destruct (handle_start_refuses wb now _ _ notes Hno) as [_ Hnone].
      rewrite Hnone in E. lia.
  - destruct (String.eqb act "stop"); [|simpl in E; lia].
    destruct (handle_stop_cases wb now notes)
      as [[_ E'] | [[e [rest [_ [_ E']]]] | [e [rest [s [_ [_ E']]]]]]];
      rewrite E' in E; simpl in E; lia.
Qed.

(** X9.  No request introduces a duplicate definition: when no two rows of
    the Projects sheet read agree, printed and lower-cased, on both fields,
    neither do two rows of the sheet in the store after the request. *)
Theorem serve_keeps_definitions_unique (wb : Workbook) (now : Timestamp)
    (req : Request) :
  NoDup (map definition_key (Projects wb)) ->
  NoDup (map definition_key (Projects (stored wb (snd (serve wb now req))))).
Proof.
  intro Hnd.
  destruct (serve_cases wb now req)
    as [[_ E] | [[p [a [n [_ [_ E]]]]] | [[e [rest [_ [_ [_ E]]]]]
       | [[e [rest [s [notes [_ [_ [_ E]]]]]]] | [p [a [Hp [Ha [Hnew [_ E]]]]]]]]]];
    rewrite E; simpl; try exact Hnd.
  rewrite map_app. simpl.
  apply (Permutation_NoDup
           (l := definition_key (mkProject (Str (strip p)) (Str (strip a)))
                 :: map definition_key (Projects wb))).
  - apply Permutation_cons_append.
  - constructor; [|exact Hnd].
    unfold definition_key at 1. simpl. exact Hnew.
Qed.

(** X10.  [add_project_activity] accepts a request exactly when both names
    are non-empty after trimming and no row of the Projects sheet agrees
    with the trimmed names, printed and lower-cased, on both fields; it
    then appends the trimmed pair as one row of text cells and leaves the
    other two sheets their rows. *)
Theorem add_definition_succeeds_exactly_when (wb : Workbook)
    (project activity : string) :
  (fst (fst (add_project_activity wb project activity)) = true <->
   strip project <> "" /\ strip activity <> "" /\
   ~ exists r, In r (Projects wb) /\
               lower (astype_str (prj_Project r)) = lower (strip project) /\
               lower (astype_str (prj_Activity r)) = lower (strip activity)) /\
  (fst (fst (add_project_activity wb project activity)) = true ->
   snd (add_project_activity wb project activity) =
   Some (mkWorkbook (map log_row_to_write (Log wb))
           (Projects wb ++ [mkProject (Str (strip project))
                                      (Str (strip activity))])%list
           (map active_row_to_write (Active wb)))) /\
  (fst (fst (add_project_activity wb project activity)) = false ->
   snd (add_project_activity wb project activity) = None).
Proof.
  assert (Hkey : In (request_key project activity)
                    (map definition_key (Projects wb)) <->
                 exists r, In r (Projects wb) /\
                   lower (astype_str (prj_Project r)) = lower (strip project) /\
                   lower (astype_str (prj_Activity r)) = lower (strip activity)).
  { rewrite in_map_iff. unfold definition_key, request_key.
    split; intros [r H]; exists r.
    - destruct H as [E Hr]. injection E as E1 E2. auto.
    - destruct H as [Hr [E1 E2]]. rewrite E1, E2. auto. }
  destruct (string_dec (strip project) "") as [Ep|Np].
  { rewrite add_project_activity_blank by (left; exact Ep). simpl.
    split; [split; [discriminate | intros [H _]; contradiction]|].
    split; [discriminate | reflexivity]. }
  destruct (string_dec (strip activity) "") as [Ea|Na].
  { rewrite add_project_activity_blank by (right; exact Ea). simpl.
    split; [split; [discriminate | intros [_ [H _]]; contradiction]|].
    split; [discriminate | reflexivity]. }
  destruct (request_key_dec wb project activity) as [Hin|Hnew].
  - rewrite (add_project_activity_known wb _ _ Np Na Hin). simpl.
    split; [split; [discriminate|]|split; [discriminate | reflexivity]].
    intros [_ [_ H]]. exfalso. apply H, Hkey, Hin.
  - rewrite (add_project_activity_new wb _ _ Np Na Hnew). simpl.
    split; [split; [|reflexivity]|split; [reflexivity | discriminate]].
    intros _. split; [exact Np|]. split; [exact Na|].
    intro H. apply Hnew, Hkey, H.
Qed.

End MachineFacts.

(** ** Workbooks the requests produce *)

Section ReachableFacts.

Context {library : Library}.
Import PyStr PyStrFacts.

Lemma entry_ok_saved (wb : Workbook) (r : LogRow) :
  entry_ok wb r -> log_row_to_write r = r.
Proof.
  intros [p [a [s [e [notes [-> _]]]]]]. apply log_row_to_write_entry.
Qed.

Lemma session_ok_saved (wb : Workbook) (r : ActiveRow) :
  session_ok wb r -> active_row_to_write r = r.
Proof. intros [p [a [n [t [-> _]]]]]. reflexivity. Qed.

Lemma entry_ok_mono (wb wb' : Workbook) (r : LogRow) :
  (forall p a, defined_pair wb p a -> defined_pair wb' p a) ->
  entry_ok wb r -> entry_ok wb' r.
Proof.
  intros Hmono [p [a [s [e [notes [E H]]]]]].
  exists p, a, s, e, notes. auto.
Qed.

Lemma session_ok_mono (wb wb' : Workbook) (r : ActiveRow) :
  (forall p a, defined_pair wb p a -> defined_pair wb' p a) ->
  session_ok wb r -> session_ok wb' r.
Proof.
  intros Hmono [p [a [n [t [E H]]]]]. exists p, a, n, t. auto.
Qed.

Lemma definition_ok_cleaned (r : ProjectRow) (p a : string) :
  definition_ok r -> cleaned_project r = (p, a) ->
  r = mkProject (Str p) (Str a).
Proof.
  intros [p0 [a0 [-> [[Hp _] [Ha _]]]]]. unfold cleaned_project. simpl.
  rewrite Hp, Ha. intro E. injection E as -> ->. reflexivity.
Qed.

Lemma consistent_new : Consistent new_workbook.
Proof. constructor; simpl; try constructor. lia. Qed.

Lemma logs_saved (wb wb' : Workbook) :
  (forall p a, defined_pair wb p a -> defined_pair wb' p a) ->
  Forall (entry_ok wb) (Log wb) ->
  Forall (entry_ok wb') (map log_row_to_write (Log wb)).
Proof.
  intros Hmono H. rewrite map_fixed.
  - eapply Forall_impl; [|exact H]. intro r. apply entry_ok_mono, Hmono.
  - eapply Forall_impl; [|exact H]. intro r. apply entry_ok_saved.
Qed.

(** Every request keeps the workbook consistent. *)
Lemma serve_consistent (wb : Workbook) (now : Timestamp) (req : Request) :
  Consistent wb -> Consistent (stored wb (snd (serve wb now req))).
Proof.
  intros [Hone Hdefs Huniq Hsess Hlog].
  destruct (serve_cases wb now req)
    as [[_ E] | [[p [a [n [Hstart [_ E]]]]] | [[e [rest [_ [_ [_ E]]]]]
       | [[e [rest [s [notes [Ha [Hs [_ E]]]]]]] | [p [a [Hp [Hq [Hnew [_ E]]]]]]]]]];
    rewrite E; simpl stored.
  - constructor; assumption.
  - destruct Hstart as [_ [_ [_ [r [Hr Hclean]]]]].
    assert (Hpair : In (mkProject (Str (strip p)) (Str (strip a))) (Projects wb)).
    { rewrite Forall_forall in Hdefs.
      rewrite <- (definition_ok_cleaned r _ _ (Hdefs r Hr) Hclean). exact Hr. }
    constructor; simpl; try assumption.
    + lia.
    + constructor; [|constructor].
      exists (strip p), (strip a), (strip n), now. split; [reflexivity | exact Hpair].
    + apply (logs_saved wb); [auto | exact Hlog].
  - constructor; simpl; try assumption.
    + lia.
    + constructor.
    + apply (logs_saved wb); [auto | exact Hlog].
  - rewrite Ha in Hsess. inversion Hsess as [|? ? He _]; subst.
    destruct He as [p [a [n [t [-> Hpair]]]]]. simpl in Hs. injection Hs as <-.
    constructor; simpl; try assumption.
    + lia.
    + constructor.
    + apply Forall_app. split; [apply (logs_saved wb); [auto | exact Hlog]|].
      constructor; [|constructor].
      eexists p, a, t, now, _. split; [reflexivity | exact Hpair].
  - assert (Hmono : forall p0 a0, defined_pair wb p0 a0 ->
                                  defined_pair (added wb p a) p0 a0).
    { intros p0 a0 H. unfold defined_pair, added. simpl.
      apply in_or_app. left. exact H. }
    constructor; simpl.
    + rewrite length_map. exact Hone.
    + apply Forall_app. split; [exact Hdefs|]. constructor; [|constructor].
      exists (strip p), (strip a). split; [reflexivity|].
      split; (split; [apply strip_idempotent | assumption]).
    + rewrite map_app. simpl.
      apply (Permutation_NoDup
               (l := definition_key (mkProject (Str (strip p)) (Str (strip a)))
                     :: map definition_key (Projects wb))).
      * apply Permutation_cons_append.
      * constructor; [exact Hnew | exact Huniq].
    + rewrite map_fixed.
      * eapply Forall_impl; [|exact Hsess]. intro r. apply session_ok_mono, Hmono.
      * eapply Forall_impl; [|exact Hsess]. intro r. apply session_ok_saved.
    + apply (logs_saved wb); [exact Hmono | exact Hlog].
Qed.

Lemma run_consistent (wb : Workbook) (trace : list (Timestamp * Request)) :
  Consistent wb -> Consistent (run wb trace).
Proof.
  revert wb. induction trace as [|[now req] trace IH]; intros wb H; simpl.
  - exact H.
  - apply IH, serve_consistent, H.
Qed.

Lemma defined_pair_found (wb : Workbook) (p a : string) :
  Forall definition_ok (Projects wb) ->
  defined_pair wb p a ->
  exists activities,
    dict_get (build_project_map (Projects wb)) p = Some activities /\
    In a activities.
Proof.
  intros Hdefs Hpair. rewrite Forall_forall in Hdefs.
  destruct (Hdefs _ Hpair) as [p0 [a0 [E [[Hp Hp'] [Ha Ha']]]]].
  injection E as -> ->.
  destruct (proj2 (project_map_lookup (Projects wb) p0 a0))
    as [activities [Hget Hmem]].
  { split; [exact Hp'|]. split; [exact Ha'|].
    exists (mkProject (Str p0) (Str a0)). split; [exact Hpair|].
    unfold cleaned_project. simpl. rewrite Hp, Ha. reflexivity. }
  exists activities. split; [exact Hget | apply mem_In, Hmem].
Qed.

(** X11.  On a store that returns what was written, starting from a new
    workbook and whatever the requests and clock readings, every Log entry
    is as a Stop built it: text Project and Activity that are a defined
    pair of the taxonomy, Start and End timestamps, Date the calendar day
    of Start and DurationMinutes the rounded minutes from Start to End. *)
Theorem reachable_entries_are_defined (trace : list (Timestamp * Request))
    (r : LogRow) :
  In r (Log (run new_workbook trace)) ->
  exists p a s e,
    log_Project r = Str p /\ log_Activity r = Str a /\
    log_Start r = Time s /\ log_End r = Time e /\
    log_Date r = Date (date_of s) /\
    log_DurationMinutes r = Num (rounded_minutes s e) /\
    exists activities,
      dict_get (build_project_map (Projects (run new_workbook trace))) p
      = Some activities /\
      In a activities.
Proof.
  intro Hr.
  destruct (run_consistent new_workbook trace consistent_new)
    as [_ Hdefs _ _ Hlog].
  rewrite Forall_forall in Hlog.
  destruct (Hlog r Hr) as [p [a [s [e [notes [-> Hpair]]]]]].
  exists p, a, s, e. simpl. repeat split.
  apply defined_pair_found; assumption.
Qed.

(** X13.  On a store that returns what was written, starting from a new
    workbook, a Stop never finds a session it cannot read: it fails with
    the no-running-timer message when idle and saves the session
    otherwise. *)
Theorem reachable_stop_never_corrupt (trace : list (Timestamp * Request))
    (now : Timestamp) (form_notes : string) :
  (Idle (run new_workbook trace) /\
   handle_stop (run new_workbook trace) now form_notes = (NoActiveSession, None)) \/
  (Running (run new_workbook trace) /\
   fst (handle_stop (run new_workbook trace) now form_notes) = SessionSaved).
Proof.
  destruct (run_consistent new_workbook trace consistent_new)
    as [_ _ _ Hsess _].
  set (wb := run new_workbook trace) in *.
  destruct (handle_stop_cases wb now form_notes)
    as [[Ha E] | [[e [rest [Ha [Hs E]]]] | [e [rest [s [Ha [Hs E]]]]]]].
  - left. split; [unfold Idle; rewrite Ha; reflexivity | exact E].
  - exfalso. rewrite Ha in Hsess. inversion Hsess as [|? ? He _]; subst.
    destruct He as [p [a [n [t [-> _]]]]]. discriminate.
  - right. split; [unfold Running; rewrite Ha; reflexivity|].
    rewrite E. reflexivity.
Qed.

End ReachableFacts.

(** ** Saving and normalising *)

Section CoercionFacts.

Context {library : Library}.

Lemma datetime_cell_idempotent (c : Cell) :
  datetime_cell (datetime_cell c) = datetime_cell c.
Proof. unfold datetime_cell. destruct (to_datetime c); reflexivity. Qed.

Lemma date_cell_idempotent (c : Cell) : date_cell (date_cell c) = date_cell c.
Proof.
  unfold date_cell. destruct (to_datetime c); simpl; [|reflexivity].
  rewrite date_of_midnight. reflexivity.
Qed.

Lemma active_row_to_write_idempotent (r : ActiveRow) :
  active_row_to_write (active_row_to_write r) = active_row_to_write r.
Proof.
  unfold active_row_to_write; simpl. rewrite datetime_cell_idempotent.
  reflexivity.
Qed.

Lemma normalize_log_row_idempotent (r : LogRow) :
  normalize_log_row (normalize_log_row r) = normalize_log_row r.
Proof.
  unfold normalize_log_row; simpl.
  rewrite date_cell_idempotent, !datetime_cell_idempotent. reflexivity.
Qed.

Lemma normalize_log_row_saved (r : LogRow) :
  normalize_log_row (log_row_to_write r) = normalize_log_row r.
Proof.
  unfold normalize_log_row, log_row_to_write; simpl.
  rewrite date_cell_idempotent, !datetime_cell_idempotent. reflexivity.
Qed.

Lemma normalize_log_dataframe_map (log_df : list LogRow) :
  normalize_log_dataframe log_df = map normalize_log_row log_df.
Proof. destruct log_df; reflexivity. Qed.

(** X14.  Saving is idempotent: a workbook that [write_workbook] saved is
    saved again cell for cell as it is, and saving keeps the number of rows
    of every sheet. *)
Theorem write_workbook_idempotent (log_df : list LogRow)
    (projects_df : list ProjectRow) (active_df : list ActiveRow) :
  write_workbook (Log (write_workbook log_df projects_df active_df))
                 (Projects (write_workbook log_df projects_df active_df))
                 (Active (write_workbook log_df projects_df active_df))
  = write_workbook log_df projects_df active_df /\
  List.length (Log (write_workbook log_df projects_df active_df))
  = List.length log_df /\
  Projects (write_workbook log_df projects_df active_df) = projects_df /\
  List.length (Active (write_workbook log_df projects_df active_df))
  = List.length active_df.
Proof.
  rewrite !write_workbook_sheets. simpl. rewrite !map_map, !length_map.
  rewrite (map_ext _ _ log_row_to_write_idempotent).
  rewrite (map_ext _ _ active_row_to_write_idempotent).
  repeat split.
Qed.

(** X15.  The normaliser keeps the number and order of the entries, is
    idempotent, and reads a Log the same before and after [write_workbook]
    has coerced it; every DurationMinutes it returns is a number. *)
Theorem normalize_log_dataframe_stable (log_df : list LogRow) :
  List.length (normalize_log_dataframe log_df) = List.length log_df /\
  normalize_log_dataframe (normalize_log_dataframe log_df)
  = normalize_log_dataframe log_df /\
  normalize_log_dataframe (Log (write_workbook log_df [] []))
  = normalize_log_dataframe log_df /\
  Forall (fun r => exists q, log_DurationMinutes r = Num q)
         (normalize_log_dataframe log_df).
Proof.
  rewrite write_workbook_sheets. simpl.
  rewrite !normalize_log_dataframe_map, !map_map, length_map.
  rewrite (map_ext _ _ normalize_log_row_idempotent).
  rewrite (map_ext _ _ normalize_log_row_saved).
  repeat split.
  apply Forall_forall. intros r Hr. apply in_map_iff in Hr.
  destruct Hr as [r0 [<- _]]. eexists. reflexivity.
Qed.

End CoercionFacts.

(** ** The recorded duration *)

Section DurationFacts.

Context {library : Library}.


End DurationFacts.

(** ** Buckets by day, week, month and year *)

Lemma StronglySorted_map {A B : Type} (f : A -> B) (R : B -> B -> Prop)
    (l : list A) :
  StronglySorted (fun a b => R (f a) (f b)) l -> StronglySorted R (map f l).
Proof.
  induction 1 as [|x l Hs IH Hall]; simpl; constructor.
  - exact IH.
  - rewrite Forall_forall in *. intros y Hy. apply in_map_iff in Hy.
    destruct Hy as [z [<- Hz]]. apply Hall, Hz.
Qed.

Lemma StronglySorted_strictly_descending (l : list Z) :
  NoDup l ->
  StronglySorted (fun a b => b <= a) l -> StronglySorted (fun a b => b < a) l.
Proof.
  intros Hnd Hs. induction Hs as [|x l Hs IH Hall]; constructor.
  - apply IH. inversion Hnd; assumption.
  - inversion Hnd as [|? ? Hnotin _]; subst.
    rewrite Forall_forall in *. intros y Hy.
    assert (y <> x) by (intro; subst; contradiction).
    specialize (Hall y Hy). lia.
Qed.

(** Buckets that each row falls in exactly one of hold the rows between
    them, each once. *)
Section PartitionFacts.

Variables A K : Type.
Variable inb : K -> A -> bool.

Hypothesis inb_functional :
  forall k k' r, inb k r = true -> inb k' r = true -> k = k'.

Lemma filter_cons_out (k : K) (r : A) (rows : list A) :
  inb k r = false -> filter (inb k) (r :: rows) = filter (inb k) rows.
Proof. intro H. simpl. rewrite H. reflexivity. Qed.

Lemma filter_cons_in (k : K) (r : A) (rows : list A) :
  inb k r = true -> filter (inb k) (r :: rows) = r :: filter (inb k) rows.
Proof. intro H. simpl. rewrite H. reflexivity. Qed.

Lemma flat_map_filter_absent (r : A) (rows : list A) (ks : list K) :
  (forall k, In k ks -> inb k r = false) ->
  flat_map (fun k => filter (inb k) (r :: rows)) ks
  = flat_map (fun k => filter (inb k) rows) ks.
Proof.
  induction ks as [|k ks IH]; intro H; [reflexivity|].
  cbn [flat_map].
  rewrite IH by (intros; apply H; right; assumption).
  rewrite filter_cons_out by (apply H; left; reflexivity). reflexivity.
Qed.

Lemma flat_map_filter_present (r : A) (rows : list A) (ks : list K) (k0 : K) :
  NoDup ks -> In k0 ks -> inb k0 r = true ->
  Permutation (flat_map (fun k => filter (inb k) (r :: rows)) ks)
              (r :: flat_map (fun k => filter (inb k) rows) ks).
Proof.
  induction 1 as [|k ks Hnotin Hnd IH]; intros Hin Hr; [contradiction|].
  cbn [flat_map].
  destruct (inb k r) eqn:Hk.
  - assert (E : k = k0) by (eapply inb_functional; eassumption). subst k.
    rewrite (filter_cons_in k0 r rows Hr).
    rewrite flat_map_filter_absent; [apply Permutation_refl|].
    intros k Hk'. destruct (inb k r) eqn:E; [|reflexivity].
    exfalso. apply Hnotin.
    rewrite <- (inb_functional k k0 r E Hr). exact Hk'.
  - destruct Hin as [->|Hin]; [congruence|].
    rewrite filter_cons_out by exact Hk.
    eapply Permutation_trans; [apply Permutation_app_head, IH; assumption|].
    apply Permutation_sym, Permutation_middle.
Qed.

Lemma buckets_partition (rows : list A) (ks : list K) :
  NoDup ks ->
  (forall r, In r rows -> exists k, In k ks /\ inb k r = true) ->
  Permutation (flat_map (fun k => filter (inb k) rows) ks) rows.
Proof.
  intros Hnd. induction rows as [|r rows IH]; intro Hcover.
  - replace (flat_map (fun k => filter (inb k) []) ks) with (@nil A);
      [constructor|].
    clear. induction ks as [|k ks IHks]; simpl; [reflexivity | exact IHks].
  - destruct (Hcover r (or_introl eq_refl)) as [k0 [Hin Hr]].
    eapply Permutation_trans;
      [apply (flat_map_filter_present r rows ks k0); assumption|].
    apply perm_skip, IH. intros r' Hr'. apply Hcover. right. exact Hr'.
Qed.

End PartitionFacts.

Lemma filter_split_perm {A : Type} (f g : A -> bool) (l : list A) :
  Permutation (filter f l)
              (filter (fun x => f x && g x) l
               ++ filter (fun x => f x && negb (g x)) l).
Proof.
  induction l as [|x l IH]; simpl; [constructor|].
  destruct (f x), (g x); simpl; try exact IH.
  - apply perm_skip, IH.
  - eapply Permutation_trans; [apply perm_skip, IH|]. apply Permutation_middle.
Qed.

Section BucketFacts.

Context {library : Library}.

Variable key : Timestamp -> Z.

(** The series of one key column: lines 186, 190, 197 and 204. *)
Let series (log_df : list LogRow) : list (Z * Q) :=
  sort_index_descending (groupby_sum (keyed_minutes key log_df)).

(** The rows of one bucket. *)
Let in_bucket (k : Z) (r : LogRow) : bool :=
  match to_datetime (log_Start r) with
  | Some t => key t =? k
  | None => false
  end.

Lemma keyed_minutes_keys (log_df : list LogRow) (k : Z) :
  In k (map fst (keyed_minutes key log_df)) <->
  exists r t, In r log_df /\ to_datetime (log_Start r) = Some t /\ key t = k.
Proof.
  unfold keyed_minutes. rewrite in_map_iff. split.
  - intros [[k' m] [E H]]. simpl in E. subst k'.
    apply in_flat_map in H. destruct H as [r [Hr H]].
    destruct (to_datetime (log_Start r)) as [t|] eqn:Ht; [|contradiction].
    destruct H as [E|[]]. injection E as E _. exists r, t. auto.
  - intros [r [t [Hr [Ht E]]]].
    exists (k, numeric_or_zero (log_DurationMinutes r)). split; [reflexivity|].
    apply in_flat_map. exists r. split; [exact Hr|].
    rewrite Ht, E. left. reflexivity.
Qed.

Lemma keyed_minutes_bucket (log_df : list LogRow) (k : Z) :
  qsum (map snd (filter (fun b => fst b =? k) (keyed_minutes key log_df)))
  = qsum (map (fun r => numeric_or_zero (log_DurationMinutes r))
              (filter (in_bucket k) log_df)).
Proof.
  unfold keyed_minutes, in_bucket.
  induction log_df as [|r log_df IH]; simpl; [reflexivity|].
  destruct (to_datetime (log_Start r)) as [t|]; simpl; [|exact IH].
  destruct (key t =? k); simpl; rewrite IH; reflexivity.
Qed.

Lemma series_keys_perm (log_df : list LogRow) :
  Permutation (map fst (series log_df))
              (nodup Z.eq_dec (map fst (keyed_minutes key log_df))).
Proof.
  unfold series, sort_index_descending, groupby_sum.
  eapply Permutation_trans; [apply Permutation_map, sort_with_perm|].
  rewrite map_map. simpl. rewrite map_id. apply sort_with_perm.
Qed.

Lemma series_descending (log_df : list LogRow) :
  StronglySorted (fun a b => b < a) (map fst (series log_df)).
Proof.
  apply StronglySorted_strictly_descending.
  - eapply Permutation_NoDup;
      [apply Permutation_sym, series_keys_perm | apply NoDup_nodup].
  - apply StronglySorted_map. apply Sorted_StronglySorted.
    + intros a b c Hab Hbc. apply Z.leb_le in Hab, Hbc. lia.
    + eapply Sorted_ind with (P := fun l => Sorted (fun a b => fst b <= fst a) l);
        [constructor | | apply (sort_with_sorted _ (fun a b => fst b <=? fst a))].
      * intros a l _ IH Hhd. constructor; [exact IH|].
        destruct Hhd; constructor. apply Z.leb_le. assumption.
      * intros x y. destruct (Z.le_ge_cases (fst x) (fst y)) as [H|H];
          [right | left]; apply Z.leb_le; lia.
Qed.

Lemma series_keys (log_df : list LogRow) (k : Z) :
  In k (map fst (series log_df)) <->
  exists r t, In r log_df /\ to_datetime (log_Start r) = Some t /\ key t = k.
Proof.
  rewrite <- keyed_minutes_keys. split; intro H.
  - apply (nodup_In Z.eq_dec).
    apply (Permutation_in _ (series_keys_perm log_df)), H.
  - apply (Permutation_in _ (Permutation_sym (series_keys_perm log_df))).
    apply nodup_In, H.
Qed.

Lemma series_buckets (log_df : list LogRow) (k : Z) (m : Q) :
  In (k, m) (series log_df) ->
  m = qsum (map (fun r => numeric_or_zero (log_DurationMinutes r))
                (filter (in_bucket k) log_df)).
Proof.
  unfold series, sort_index_descending. rewrite sort_with_in.
  unfold groupby_sum. rewrite in_map_iff. intros [k' [E _]].
  injection E as -> <-. apply keyed_minutes_bucket.
Qed.

Lemma bucket_rows_started (log_df : list LogRow) (k : Z) :
  bucket_rows key k log_df = filter (in_bucket k) (filter has_start log_df).
Proof.
  unfold bucket_rows, in_bucket, has_start.
  induction log_df as [|r log_df IH]; simpl; [reflexivity|].
  destruct (to_datetime (log_Start r)) as [t|] eqn:Ht; simpl; [|exact IH].
  rewrite Ht. destruct (key t =? k); rewrite IH; reflexivity.
Qed.


(** The buckets of a series hold the rows with a readable Start between
    them, each row once. *)
Lemma series_partition (log_df : list LogRow) :
  Permutation
    (flat_map (fun k => bucket_rows key k log_df) (map fst (series log_df)))
    (filter has_start log_df).
Proof.
  rewrite (flat_map_ext _ (fun k => filter (in_bucket k) (filter has_start log_df)))
    by (intro k; apply bucket_rows_started).
  apply buckets_partition.
  - intros k k' r. unfold in_bucket.
    destruct (to_datetime (log_Start r)); [|discriminate].
    intros H1 H2. apply Z.eqb_eq in H1, H2. congruence.
  - eapply Permutation_NoDup;
      [apply Permutation_sym, series_keys_perm | apply NoDup_nodup].
  - intros r Hr. apply filter_In in Hr. destruct Hr as [Hr Hs].
    unfold has_start in Hs.
    destruct (to_datetime (log_Start r)) as [t|] eqn:Ht; [|discriminate].
    exists (key t). split.
    + apply series_keys. exists r, t. auto.
    + unfold in_bucket. rewrite Ht. apply Z.eqb_refl.
Qed.

Lemma series_bucket_rows (log_df : list LogRow) (k : Z) (m : Q) :
  In (k, m) (series log_df) ->
  m = qsum (map (fun r => numeric_or_zero (log_DurationMinutes r))
                (bucket_rows key k log_df)).
Proof. apply series_buckets. Qed.

End BucketFacts.

(** The calendar on a few known days: the epoch and the day before, two
    leap days, the first day of 2001 and the month periods around the
    epoch. *)
Example civil_dates :
  map civil_from_days [0; -1; 11016; 19782; 19783; 11323]
  = [(1970, 1, 1); (1969, 12, 31); (2000, 2, 29); (2024, 2, 29); (2024, 3, 1);
     (2001, 1, 1)] /\
  map (fun d => month_period (midnight d)) [0; -1; 19782] = [0; -1; 649] /\
  map (fun p => date_of (month_period_start p)) [0; -1; 649] = [0; -31; 19754] /\
  map (fun d => week_start (midnight d)) [0; -1; 19723; 19729; 19730]
  = [-3; -3; 19723; 19723; 19730].
Proof. repeat split. Qed.

Section SummaryFacts.

Context {library : Library}.

Lemma daily_series_keyed (log_df : list LogRow) :
  daily_series log_df
  = sort_index_descending (groupby_sum (keyed_minutes date_of log_df)).
Proof. destruct log_df; reflexivity. Qed.

Lemma weekly_series_keyed (log_df : list LogRow) :
  weekly_series log_df
  = sort_index_descending (groupby_sum (keyed_minutes week_start log_df)).
Proof. destruct log_df; reflexivity. Qed.

Lemma monthly_series_keyed (log_df : list LogRow) :
  monthly_series log_df
  = sort_index_descending (groupby_sum (keyed_minutes month_period log_df)).
Proof. destruct log_df; reflexivity. Qed.

Lemma yearly_series_keyed (log_df : list LogRow) :
  yearly_series log_df
  = sort_index_descending (groupby_sum (keyed_minutes year_of log_df)).
Proof. destruct log_df; reflexivity. Qed.

(** X17.  The daily series has one bucket for each calendar day on which
    some entry with a readable Start started and no other, latest day
    first, and each bucket is the sum of the DurationMinutes of the entries
    that started on its day. *)
Theorem daily_buckets_by_day (log_df : list LogRow) :
  StronglySorted (fun a b => b < a) (map fst (daily_series log_df)) /\
  (forall d,
      In d (map fst (daily_series log_df)) <->
      exists r t, In r log_df /\ to_datetime (log_Start r) = Some t /\
                  date_of t = d) /\
  (forall d minutes,
      In (d, minutes) (daily_series log_df) ->
      minutes =
      qsum (map (fun r => numeric_or_zero (log_DurationMinutes r))
                (filter (fun r => match to_datetime (log_Start r) with
                                  | Some t => date_of t =? d
                                  | None => false
                                  end)
                        log_df))).
Proof.
  rewrite daily_series_keyed. split; [|split].
  - apply series_descending.
  - apply series_keys.
  - apply series_buckets.
Qed.

Lemma week_start_monday (t : Timestamp) :
  (week_start t + 3) mod 7 = 0 /\
  week_start t <= date_of t <= week_start t + 6.
Proof.
  unfold week_start.
  pose proof (Z.mod_pos_bound (date_of t + 3) 7 ltac:(lia)) as Hb.
  split; [|lia].
  pose proof (Z.div_mod (date_of t + 3) 7 ltac:(lia)) as Hdm.
  replace (date_of t - (date_of t + 3) mod 7 + 3)
    with ((date_of t + 3) / 7 * 7) by lia.
  apply Z.mod_mul. lia.
Qed.

(** X19.  Every bucket of the weekly series is keyed by a Monday, the
    weeks are listed latest first with one bucket each, and every entry
    with a readable Start is in the bucket of the Monday on or at most six
    days before the day it started. *)
Theorem weekly_buckets_start_on_monday (log_df : list LogRow) :
  StronglySorted (fun a b => b < a) (map fst (weekly_series log_df)) /\
  (forall w, In w (map fst (weekly_series log_df)) -> (w + 3) mod 7 = 0) /\
  (forall r t,
      In r log_df -> to_datetime (log_Start r) = Some t ->
      exists w, In w (map fst (weekly_series log_df)) /\
                w <= date_of t <= w + 6).
Proof.
  rewrite weekly_series_keyed. split; [apply series_descending|]. split.
  - intros w Hw. apply series_keys in Hw. destruct Hw as [r [t [_ [_ <-]]]].
    apply week_start_monday.
  - intros r t Hr Ht. exists (week_start t). split.
    + apply series_keys. exists r, t. auto.
    + apply week_start_monday.
Qed.


(** X18.  The daily, weekly, monthly and yearly series bucket the same
    entries: each holds between its buckets the entries with a readable
    Start, each entry once, and each weekly, monthly and yearly bucket is
    the sum of the DurationMinutes of its entries; entries that started on
    one day are in one week, one month and one year. *)
Theorem summary_series_share_entries (log_df : list LogRow) :
  Permutation
    (flat_map (fun k => bucket_rows date_of k log_df)
              (map fst (daily_series log_df)))
    (filter has_start log_df) /\
  Permutation
    (flat_map (fun k => bucket_rows week_start k log_df)
              (map fst (weekly_series log_df)))
    (filter has_start log_df) /\
  Permutation
    (flat_map (fun k => bucket_rows month_period k log_df)
              (map fst (monthly_series log_df)))
    (filter has_start log_df) /\
  Permutation
    (flat_map (fun k => bucket_rows year_of k log_df)
              (map fst (yearly_series log_df)))
    (filter has_start log_df) /\
  (forall k minutes,
      In (k, minutes) (weekly_series log_df) ->
      minutes = qsum (map (fun r => numeric_or_zero (log_DurationMinutes r))
                          (bucket_rows week_start k log_df))) /\
  (forall k minutes,
      In (k, minutes) (monthly_series log_df) ->
      minutes = qsum (map (fun r => numeric_or_zero (log_DurationMinutes r))
                          (bucket_rows month_period k log_df))) /\
  (forall k minutes,
      In (k, minutes) (yearly_series log_df) ->
      minutes = qsum (map (fun r => numeric_or_zero (log_DurationMinutes r))
                          (bucket_rows year_of k log_df))) /\
  (forall t1 t2 : Timestamp,
      date_of t1 = date_of t2 ->
      week_start t1 = week_start t2 /\ month_period t1 = month_period t2 /\
      year_of t1 = year_of t2).
Proof.
  rewrite daily_series_keyed, weekly_series_keyed, monthly_series_keyed,
    yearly_series_keyed.
  repeat (split; [apply series_partition|]).
  repeat (split; [apply series_bucket_rows|]).
  intros t1 t2 E. unfold week_start, month_period, year_of. rewrite E.
  repeat split.
Qed.

(** X12.  On a store that returns what was written, starting from a new
    workbook, every Log entry has a Start and an End that read as
    timestamps, so the summary leaves none out: the daily buckets hold
    between them all the entries of the Log, each once. *)
Theorem reachable_log_is_summarised (trace : list (Timestamp * Request)) :
  forallb has_start (Log (run new_workbook trace)) = true /\
  forallb has_end (Log (run new_workbook trace)) = true /\
  Permutation
    (flat_map (fun d => bucket_rows date_of d (Log (run new_workbook trace)))
              (map fst (daily_series (Log (run new_workbook trace)))))
    (Log (run new_workbook trace)).
Proof.
  set (log := Log (run new_workbook trace)).
  destruct (run_consistent new_workbook trace consistent_new)
    as [_ _ _ _ Hlog].
  fold log in Hlog. rewrite Forall_forall in Hlog.
  assert (Hstart : forallb has_start log = true).
  { apply forallb_forall. intros r Hr.
    destruct (Hlog r Hr) as [p [a [s [e [notes [-> _]]]]]]. reflexivity. }
  assert (Hend : forallb has_end log = true).
  { apply forallb_forall. intros r Hr.
    destruct (Hlog r Hr) as [p [a [s [e [notes [-> _]]]]]]. reflexivity. }
  split; [exact Hstart|]. split; [exact Hend|].
  rewrite daily_series_keyed.
  pose proof (series_partition date_of log) as H.
  rewrite (forallb_filter_id has_start log Hstart) in H. exact H.
Qed.

End SummaryFacts.

(** ** Buckets by project and by activity *)

Section NamedBucketFacts.

Variable K : Type.
Variable eq_dec : forall x y : K, {x = y} + {x <> y}.
Variable leb : K -> K -> bool.

Lemma groupby_sum_by_keys (rows : list (K * Q)) :
  Permutation (map fst (groupby_sum_by eq_dec leb rows))
              (nodup eq_dec (map fst rows)).
Proof.
  unfold groupby_sum_by. rewrite map_map. simpl. rewrite map_id.
  apply sort_with_perm.
Qed.

Lemma named_series_keys (rows : list (K * Q)) :
  Permutation
    (map fst (sort_with (fun a b => Qle_bool (snd b) (snd a))
                        (groupby_sum_by eq_dec leb rows)))
    (nodup eq_dec (map fst rows)).
Proof.
  eapply Permutation_trans;
    [apply Permutation_map, sort_with_perm | apply groupby_sum_by_keys].
Qed.

(** The buckets of a series keyed by name hold the rows of the frame
    between them, each row once, and each bucket is the sum of its rows. *)
Lemma named_series_partition (rows : list (K * Q)) :
  Permutation
    (flat_map (fun k => named_bucket eq_dec k rows)
              (map fst (sort_with (fun a b => Qle_bool (snd b) (snd a))
                                  (groupby_sum_by eq_dec leb rows))))
    rows.
Proof.
  apply (buckets_partition _ _
           (fun k (r : K * Q) => if eq_dec (fst r) k then true else false)).
  - intros k k' r.
    destruct (eq_dec (fst r) k), (eq_dec (fst r) k'); congruence.
  - eapply Permutation_NoDup;
      [apply Permutation_sym, named_series_keys | apply NoDup_nodup].
  - intros r Hr. exists (fst r). split.
    + apply (Permutation_in _ (Permutation_sym (named_series_keys rows))).
      apply nodup_In, in_map, Hr.
    + destruct (eq_dec (fst r) (fst r)); congruence.
Qed.

Lemma named_series_buckets (rows : list (K * Q)) (k : K) (m : Q) :
  In (k, m) (sort_with (fun a b => Qle_bool (snd b) (snd a))
                       (groupby_sum_by eq_dec leb rows)) ->
  m = qsum (map snd (named_bucket eq_dec k rows)).
Proof.
  rewrite sort_with_in. unfold groupby_sum_by. rewrite in_map_iff.
  intros [k' [E _]]. injection E as -> <-. reflexivity.
Qed.

Lemma sort_values_descending_perm (series : list (K * Q)) :
  Permutation (sort_values_descending series) series.
Proof. apply sort_with_perm. Qed.

Lemma sort_values_descending_sorted (series : list (K * Q)) :
  StronglySorted (fun a b => (snd b <= snd a)%Q) (sort_values_descending series).
Proof.
  apply (StronglySorted_impl _
           (fun a b => Qle_bool (snd b) (snd a) = true)).
  - intros a b H. apply Qle_bool_iff, H.
  - apply Sorted_StronglySorted.
    + intros a b c Hab Hbc. apply Qle_bool_iff in Hab, Hbc.
      apply Qle_bool_iff. eapply Qle_trans; eassumption.
    + apply sort_with_sorted. intros x y.
      destruct (Qlt_le_dec (snd x) (snd y)) as [H|H].
      * right. apply Qle_bool_iff, Qlt_le_weak, H.
      * left. apply Qle_bool_iff, H.
Qed.

End NamedBucketFacts.

Section NamedSummaryFacts.

Context {library : Library}.

Lemma project_series_unfold (log_df : list LogRow) :
  project_series log_df =
  sort_values_descending
    (groupby_sum_by string_dec String.leb
       (map (fun r => (fst (fst r), snd r))
            (filter (fun r => negb (String.eqb (fst (fst r)) ""))
                    (activity_df log_df)))).
Proof. destruct log_df; reflexivity. Qed.

Lemma activity_series_unfold (log_df : list LogRow) :
  activity_series log_df =
  sort_values_descending
    (groupby_sum_by eq_dec_names names_leb
       (filter (fun r => negb (String.eqb (fst (fst r)) "")
                         && negb (String.eqb (snd (fst r)) ""))
               (activity_df log_df))).
Proof. destruct log_df; reflexivity. Qed.

(** X20.  Every entry with a readable Start and a non-empty project name
    is counted in exactly one project bucket, that of its stripped project
    name, and when its activity name is not empty either in exactly one
    activity bucket, that of its project and activity; each bucket is the
    sum of the DurationMinutes of its entries; and the minutes counted by
    project are those counted by activity together with those of the
    entries that have a project and no activity. *)
Theorem project_and_activity_buckets (log_df : list LogRow) :
  Permutation
    (flat_map (fun p => named_bucket string_dec p (project_df log_df))
              (map fst (project_series log_df)))
    (project_df log_df) /\
  Permutation
    (flat_map (fun k => named_bucket eq_dec_names k (named_activity_df log_df))
              (map fst (activity_series log_df)))
    (named_activity_df log_df) /\
  (forall p minutes,
      In (p, minutes) (project_series log_df) ->
      minutes = qsum (map snd (named_bucket string_dec p (project_df log_df)))) /\
  (forall k minutes,
      In (k, minutes) (activity_series log_df) ->
      minutes
      = qsum (map snd (named_bucket eq_dec_names k (named_activity_df log_df)))) /\
  Permutation
    (map snd (project_df log_df))
    (map snd (named_activity_df log_df)
     ++ map snd (filter (fun r => negb (String.eqb (fst (fst r)) "")
                                  && String.eqb (snd (fst r)) "")
                        (activity_df log_df))).
Proof.
  rewrite project_series_unfold, activity_series_unfold.
  fold (project_df log_df). fold (named_activity_df log_df).
  unfold sort_values_descending.
  split; [apply named_series_partition|].
  split; [apply named_series_partition|].
  split; [apply named_series_buckets|].
  split; [apply named_series_buckets|].
  unfold project_df, named_activity_df. rewrite map_map. simpl.
  rewrite <- map_app. apply Permutation_map.
  rewrite (filter_ext
             (fun r : string * string * Q =>
                negb (String.eqb (fst (fst r)) "") && String.eqb (snd (fst r)) "")
             (fun r => negb (String.eqb (fst (fst r)) "")
                       && negb (negb (String.eqb (snd (fst r)) ""))))
    by (intro r; rewrite negb_involutive; reflexivity).
  apply (filter_split_perm
           (fun r : string * string * Q => negb (String.eqb (fst (fst r)) ""))
           (fun r : string * string * Q => negb (String.eqb (snd (fst r)) ""))).
Qed.

(** X21.  The project and the activity series list their buckets by
    falling sum, have one bucket per name, and name no bucket with an empty
    project or, in the activity series, an empty activity. *)
Theorem named_buckets_ordered (log_df : list LogRow) :
  StronglySorted (fun a b => (snd b <= snd a)%Q) (project_series log_df) /\
  StronglySorted (fun a b => (snd b <= snd a)%Q) (activity_series log_df) /\
  NoDup (map fst (project_series log_df)) /\
  NoDup (map fst (activity_series log_df)) /\
  (forall project, In project (map fst (project_series log_df)) ->
                   project <> "") /\
  (forall project activity,
      In (project, activity) (map fst (activity_series log_df)) ->
      project <> "" /\ activity <> "").
Proof.
  rewrite project_series_unfold, activity_series_unfold.
  split; [apply sort_values_descending_sorted|].
  split; [apply sort_values_descending_sorted|].
  assert (Hkeys : forall (K : Type) (dec : forall x y : K, {x = y} + {x <> y})
                         (le : K -> K -> bool) (rows : list (K * Q)),
             Permutation
               (map fst (sort_values_descending (groupby_sum_by dec le rows)))
               (nodup dec (map fst rows))).
  { intros K dec le rows.
    eapply Permutation_trans;
      [apply Permutation_map, sort_values_descending_perm
      |apply groupby_sum_by_keys]. }
  split; [eapply Permutation_NoDup;
            [apply Permutation_sym, Hkeys | apply NoDup_nodup]|].
  split; [eapply Permutation_NoDup;
            [apply Permutation_sym, Hkeys | apply NoDup_nodup]|].
  split.
  - intros project Hin.
    apply (Permutation_in _ (Hkeys _ _ _ _)), nodup_In in Hin.
    rewrite map_map in Hin. apply in_map_iff in Hin.
    destruct Hin as [r [<- Hr]]. apply filter_In in Hr. destruct Hr as [_ Hne].
    simpl. apply negb_true_iff, String.eqb_neq in Hne. exact Hne.
  - intros project activity Hin.
    apply (Permutation_in _ (Hkeys _ _ _ _)), nodup_In in Hin.
    apply in_map_iff in Hin.
    destruct Hin as [r [E Hr]]. apply filter_In in Hr. destruct Hr as [_ Hne].
    apply andb_true_iff in Hne. destruct Hne as [H1 H2].
    rewrite E in H1, H2. simpl in H1, H2.
    apply negb_true_iff, String.eqb_neq in H1, H2. auto.
Qed.

End NamedSummaryFacts.

(** ** The recent entries *)

Section RecentFacts.

Context {library : Library}.

Lemma recent_frame_unfold (log_df : list LogRow) (limit : nat) :
  recent_frame log_df limit =
  firstn limit
    (sort_with (fun a b => fst (fst b) <=? fst (fst a))
       (flat_map
          (fun r =>
             match to_datetime (log_Start r), to_datetime (log_End r) with
             | Some s, Some e => [(s, e, r)]
             | _, _ => []
             end)
          log_df)).
Proof. destruct log_df; [destruct limit|]; reflexivity. Qed.

Lemma timed_rows_in (log_df : list LogRow) (s e : Timestamp) (r : LogRow) :
  In (s, e, r)
     (flat_map
        (fun r =>
           match to_datetime (log_Start r), to_datetime (log_End r) with
           | Some s, Some e => [(s, e, r)]
           | _, _ => []
           end)
        log_df) <->
  In r log_df /\ to_datetime (log_Start r) = Some s /\
  to_datetime (log_End r) = Some e.
Proof.
  rewrite in_flat_map. split.
  - intros [r' [Hr H]].
    destruct (to_datetime (log_Start r')) as [s'|] eqn:Hs; [|contradiction].
    destruct (to_datetime (log_End r')) as [e'|] eqn:He; [|contradiction].
    destruct H as [E|[]]. injection E as -> -> ->. auto.
  - intros [Hr [Hs He]]. exists r. split; [exact Hr|].
    rewrite Hs, He. left. reflexivity.
Qed.

Lemma timed_rows_length (log_df : list LogRow) :
  List.length
    (flat_map
       (fun r =>
          match to_datetime (log_Start r), to_datetime (log_End r) with
          | Some s, Some e => [(s, e, r)]
          | _, _ => []
          end)
       log_df)
  = List.length (filter (fun r => has_start r && has_end r) log_df).
Proof.
  unfold has_start, has_end.
  induction log_df as [|r log_df IH]; simpl; [reflexivity|].
  destruct (to_datetime (log_Start r)); simpl; [|exact IH].
  destruct (to_datetime (log_End r)); simpl; rewrite IH; reflexivity.
Qed.

(** X22.  The frame of recent entries holds the entries that have a
    readable Start and a readable End, latest Start first, cut to the
    limit: its length is the smaller of the limit and the number of such
    entries, and an entry that was cut started no later than every entry
    kept. *)
Theorem recent_frame_latest_first (log_df : list LogRow) (limit : nat) :
  List.length (recent_frame log_df limit)
  = Nat.min limit
      (List.length (filter (fun r => has_start r && has_end r) log_df)) /\
  StronglySorted (fun a b => fst (fst b) <= fst (fst a))
                 (recent_frame log_df limit) /\
  (forall s e r,
      In (s, e, r) (recent_frame log_df limit) ->
      In r log_df /\ to_datetime (log_Start r) = Some s /\
      to_datetime (log_End r) = Some e) /\
  (forall s e r,
      In r log_df -> to_datetime (log_Start r) = Some s ->
      to_datetime (log_End r) = Some e ->
      In (s, e, r) (recent_frame log_df limit) \/
      forall kept, In kept (recent_frame log_df limit) -> s <= fst (fst kept)).
Proof.
  rewrite recent_frame_unfold.
  set (df := flat_map _ log_df).
  set (sorted_df := sort_with (fun a b => fst (fst b) <=? fst (fst a)) df).
  assert (Hsorted : StronglySorted (fun a b => fst (fst b) <= fst (fst a))
                                   sorted_df).
  { apply (StronglySorted_impl _
             (fun a b : Timestamp * Timestamp * LogRow =>
                (fst (fst b) <=? fst (fst a)) = true)).
    - intros a b H. apply Z.leb_le, H.
    - apply Sorted_StronglySorted.
      + intros a b c Hab Hbc. apply Z.leb_le in Hab, Hbc. apply Z.leb_le. lia.
      + apply sort_with_sorted. intros x y.
        destruct (Z.le_ge_cases (fst (fst x)) (fst (fst y)));
          [right | left]; apply Z.leb_le; lia. }
  assert (Hsplit : sorted_df = (firstn limit sorted_df ++ skipn limit sorted_df)%list)
    by (symmetry; apply firstn_skipn).
  split; [|split; [|split]].
  - rewrite length_firstn. unfold sorted_df.
    rewrite (Permutation_length (sort_with_perm _ _ df)).
    unfold df. rewrite timed_rows_length. reflexivity.
  - rewrite Hsplit in Hsorted. clear Hsplit.
    induction (firstn limit sorted_df) as [|x l IH]; [constructor|].
    simpl in Hsorted. inversion Hsorted as [|? ? Hs Hall]; subst.
    constructor; [apply IH, Hs|].
    rewrite Forall_forall in *. intros y Hy. apply Hall, in_or_app. left. exact Hy.
  - intros s e r Hin.
    assert (Hin' : In (s, e, r) sorted_df)
      by (rewrite Hsplit; apply in_or_app; left; exact Hin).
    apply sort_with_in in Hin'. apply timed_rows_in, Hin'.
  - intros s e r Hr Hs He.
    assert (Hin : In (s, e, r) sorted_df)
      by (apply sort_with_in, timed_rows_in; auto).
    rewrite Hsplit in Hin. apply in_app_or in Hin.
    destruct Hin as [Hin|Hin]; [left; exact Hin | right].
    intros kept Hkept. rewrite Hsplit in Hsorted. clear Hsplit.
    induction (firstn limit sorted_df) as [|x l IH]; [contradiction|].
    simpl in Hsorted. inversion Hsorted as [|? ? Hs' Hall]; subst.
    destruct Hkept as [<-|Hkept]; [|apply IH; assumption].
    rewrite Forall_forall in Hall.
    apply (Hall (s, e, r)), in_or_app. right. exact Hin.
Qed.

End RecentFacts.

(** ** What the formatted duration tells *)

Lemma distinct_NoDup (l : list string) : distinct l = true -> NoDup l.
Proof.
  induction l as [|x l IH]; simpl; intro H; constructor.
  - apply andb_true_iff in H. destruct H as [H _].
    apply negb_true_iff in H. intro Hin.
    assert (existsb (String.eqb x) l = true)
      by (apply existsb_exists; exists x; split;
          [exact Hin | apply String.eqb_refl]).
    congruence.
  - apply IH. apply andb_true_iff in H. apply H.
Qed.

Lemma NoDup_map_injective {A B : Type} (f : A -> B) (l : list A) (x y : A) :
  NoDup (map f l) -> In x l -> In y l -> f x = f y -> x = y.
Proof.
  induction l as [|z l IH]; simpl; intros Hnd Hx Hy E; [contradiction|].
  inversion Hnd as [|? ? Hnotin Hnd']; subst.
  destruct Hx as [->|Hx], Hy as [->|Hy]; auto.
  - exfalso. apply Hnotin. rewrite E. apply in_map, Hy.
  - exfalso. apply Hnotin. rewrite <- E. apply in_map, Hx.
Qed.

(** Below one hour no two numbers of seconds are rendered alike. *)
Lemma render_seconds_distinct_below_an_hour :
  NoDup (map (fun i => render_seconds (Z.of_nat i)) (seq 0 3600)).
Proof. apply distinct_NoDup. vm_compute. reflexivity. Qed.

Lemma render_seconds_injective_below_an_hour (s1 s2 : Z) :
  0 <= s1 < 3600 -> 0 <= s2 < 3600 ->
  render_seconds s1 = render_seconds s2 -> s1 = s2.
Proof.
  intros H1 H2 E.
  assert (N : Z.to_nat s1 = Z.to_nat s2).
  { apply (NoDup_map_injective
             (fun i => render_seconds (Z.of_nat i)) (seq 0 3600));
      [exact render_seconds_distinct_below_an_hour
      | apply in_seq; lia | apply in_seq; lia |].
    rewrite !Z2Nat.id by lia. exact E. }
  lia.
Qed.

(** From one hour on the seconds are dropped. *)
Lemma render_seconds_whole_minutes (s1 s2 : Z) :
  3600 <= s1 -> s1 / 60 = s2 / 60 -> render_seconds s1 = render_seconds s2.
Proof.
  intros Hlong Hmin. unfold render_seconds.
  assert (Hh : forall s, s / 3600 = s / 60 / 60)
    by (intro s; rewrite Z.div_div by lia; reflexivity).
  assert (Hm : forall s, s mod 3600 / 60 = (s / 60) mod 60).
  { intro s. change 3600 with (60 * 60).
    rewrite Z.rem_mul_r by lia.
    rewrite (Z.mul_comm 60), Z.div_add by lia.
    rewrite Z.div_small by (apply Z.mod_pos_bound; lia). reflexivity. }
  rewrite !Hh, !Hm, <- Hmin.
  assert (Hne : s1 / 60 / 60 <> 0).
  { rewrite <- Hh. assert (1 <= s1 / 3600) by (apply Z.div_le_lower_bound; lia).
    lia. }
  apply Z.eqb_neq in Hne. rewrite Hne. reflexivity.
Qed.

Section ResolutionFacts.

Context {library : Library}.

(** X23.  Below one hour the formatted duration tells the whole seconds of
    line 151: two durations are rendered alike exactly when they come to
    the same number of seconds.  From one hour on the seconds are dropped:
    durations of at least an hour that agree in their whole minutes are
    rendered alike. *)
Theorem format_duration_resolution (m1 m2 : Q) (s1 s2 : Z) :
  whole_seconds m1 = Some s1 ->
  whole_seconds m2 = Some s2 ->
  (0 <= s1 < 3600 -> 0 <= s2 < 3600 ->
   (format_duration m1 = format_duration m2 <-> s1 = s2)) /\
  (3600 <= s1 -> s1 / 60 = s2 / 60 ->
   format_duration m1 = format_duration m2).
Proof.
  intros E1 E2. unfold format_duration. rewrite E1, E2. split.
  - intros H1 H2. split; [|intros ->; reflexivity].
    intro E. injection E as E.
    apply render_seconds_injective_below_an_hour; assumption.
  - intros Hlong Hmin. f_equal.
    apply render_seconds_whole_minutes; assumption.
Qed.

End ResolutionFacts.

(** ** The clock *)

Section ClockFacts.

Context {library : Library}.

Lemma timely_later (c c' : Timestamp) (wb : Workbook) :
  c <= c' -> Timely c wb -> Timely c' wb.
Proof.
  intros Hc [Ha Hl]. split; [|exact Hl].
  eapply Forall_impl; [|exact Ha].
  intros r [t [E Ht]]. exists t. split; [exact E | lia].
Qed.

Lemma serve_timely (c now : Timestamp) (wb : Workbook) (req : Request) :
  c <= now -> Consistent wb -> Timely c wb ->
  Timely now (stored wb (snd (serve wb now req))).
Proof.
  intros Hc [_ _ _ Hsess Hlog] Ht.
  assert (Hlogs : map log_row_to_write (Log wb) = Log wb).
  { apply map_fixed. eapply Forall_impl; [|exact Hlog].
    intro r. apply entry_ok_saved. }
  assert (Hacts : map active_row_to_write (Active wb) = Active wb).
  { apply map_fixed. eapply Forall_impl; [|exact Hsess].
    intro r. apply session_ok_saved. }
  pose proof (timely_later c now wb Hc Ht) as [Ha Hl].
  destruct (serve_cases wb now req)
    as [[_ E] | [[p [a [n [_ [_ E]]]]] | [[e [rest [_ [_ [_ E]]]]]
       | [[e [rest [s [notes [Hact [Hs [_ E]]]]]]] | [p [a [_ [_ [_ [_ E]]]]]]]]]];
    rewrite E; simpl stored.
  - split; assumption.
  - split; simpl; [|rewrite Hlogs; exact Hl].
    constructor; [|constructor]. exists now. split; [reflexivity | lia].
  - split; simpl; [constructor | rewrite Hlogs; exact Hl].
  - split; simpl; [constructor|]. rewrite Hlogs.
    apply Forall_app. split; [exact Hl|]. constructor; [|constructor].
    rewrite Hact in Ha. inversion Ha as [|? ? [t [Et Hle]] _]; subst.
    rewrite Et in Hs. simpl in Hs. injection Hs as <-.
    exists t, now. simpl. repeat split. exact Hle.
  - split; simpl; [rewrite Hacts; exact Ha | rewrite Hlogs; exact Hl].
Qed.

Lemma run_timely (trace : list (Timestamp * Request)) :
  forall (c : Timestamp) (wb : Workbook),
    nondecreasing c trace -> Consistent wb -> Timely c wb ->
    exists c', Timely c' (run wb trace).
Proof.
  induction trace as [|[now req] trace IH]; intros c wb Hmono Hcons Ht; simpl.
  - exists c. exact Ht.
  - destruct Hmono as [Hc Hrest]. simpl in Hc, Hrest.
    apply (IH now).
    + exact Hrest.
    + apply serve_consistent, Hcons.
    + apply (serve_timely c); assumption.
Qed.

(** X24.  On a store that returns what was written, starting from a new
    workbook, when the clock readings of the requests never go back every
    Log entry ends no earlier than it starts and its DurationMinutes is not
    negative. *)
Theorem monotone_clock_keeps_durations_nonnegative (lo : Timestamp)
    (trace : list (Timestamp * Request)) (r : LogRow) :
  nondecreasing lo trace ->
  In r (Log (run new_workbook trace)) ->
  exists s e minutes,
    log_Start r = Time s /\ log_End r = Time e /\ s <= e /\
    log_DurationMinutes r = Num minutes /\ (0 <= minutes)%Q.
Proof.
  intros Hmono Hr.
  destruct (run_timely trace lo new_workbook Hmono consistent_new)
    as [c [_ Hl]].
  { split; constructor. }
  rewrite Forall_forall in Hl.
  destruct (Hl r Hr) as [s [e [Hs [He [Hle Hd]]]]].
  exists s, e, (rounded_minutes s e).
  repeat split; try assumption.
  apply rounded_minutes_sign, Hle.
Qed.

End ClockFacts.

(** * The further properties at work on the example data *)



(** Five and six seconds are told apart. *)
Lemma format_duration_resolution_witness :
  whole_seconds (5 # 60) = Some 5 /\
  whole_seconds (6 # 60) = Some 6 /\
  format_duration (5 # 60) <> format_duration (6 # 60).
Proof.
  assert (E1 : whole_seconds (5 # 60) = Some 5) by reflexivity.
  assert (E2 : whole_seconds (6 # 60) = Some 6) by reflexivity.
  split; [exact E1|]. split; [exact E2|].
  intro E.
  destruct (format_duration_resolution (5 # 60) (6 # 60) 5 6 E1 E2) as [H _].
  assert (F : 5 = 6) by (apply H; [lia | lia | exact E]).
  discriminate F.
Defined.

(** The three requests of [sample_trace] leave the definition, no session
    and the one entry. *)
Example run_sample_trace :
  run new_workbook sample_trace
  = mkWorkbook [sample_entry] [mkProject (Str "Work") (Str "Email")] [].
Proof. reflexivity. Qed.

(** A Stop served at a clock reading one minute before the Start records
    minus one minute. *)
Example clock_gone_back :
  Log (stored running_workbook
         (snd (handle_stop running_workbook (T0 - 60 * ns_per_second) "")))
  = [mkLog (Date 19723) (Str "Work") (Str "Email") (Time T0)
           (Time (T0 - 60 * ns_per_second)) (Num (-100 # 100)) (Str "")].
Proof. reflexivity. Qed.

(** Start on the idle workbook, then a Start for another pair. *)
Lemma start_leaves_running_witness :
  category (fst (handle_start idle_workbook T0 "Work" "Email" "")) = "success" /\
  Running running_workbook /\
  handle_start running_workbook (T0 + 1) "Play" "Chess" ""
  = (AlreadyRunning, None).
Proof.
  assert (Hok : category (fst (handle_start idle_workbook T0 "Work" "Email" ""))
                = "success") by reflexivity.
  split; [exact Hok|].
  destruct (start_leaves_running idle_workbook T0 (T0 + 1) "Work" "Email" ""
              "Play" "Chess" "" Hok) as [Hrun [_ Hagain]].
  split; [exact Hrun | exact Hagain].
Defined.

(** A Start served while a session runs leaves the one session. *)
Lemma serve_keeps_one_session_witness :
  (List.length (Active running_workbook) <= 1)%nat /\
  (List.length
     (Active (stored running_workbook
                (snd (serve running_workbook (T0 + 1)%Z
                        (PostIndex (Some "start") "Work" "Email" "")))))
   <= 1)%nat.
Proof.
  split; [simpl; lia|].
  apply (serve_keeps_one_session running_workbook). simpl. lia.
Defined.

(** A second definition beside Work / Email. *)
Lemma serve_keeps_definitions_unique_witness :
  NoDup (map definition_key (Projects idle_workbook)) /\
  NoDup (map definition_key
           (Projects (stored idle_workbook
                        (snd (serve idle_workbook T0
                                (PostAddProject "Play" "Chess")))))) /\
  List.length
    (Projects (stored idle_workbook
                 (snd (serve idle_workbook T0 (PostAddProject "Play" "Chess")))))
  = 2%nat.
Proof.
  assert (H : NoDup (map definition_key (Projects idle_workbook)))
    by (constructor; [intros [] | constructor]).
  split; [exact H|]. split; [|reflexivity].
  apply (serve_keeps_definitions_unique idle_workbook T0 _ H).
Defined.

(** The entry of [sample_trace] names a pair the taxonomy holds. *)
Lemma reachable_entries_are_defined_witness :
  In sample_entry (Log (run new_workbook sample_trace)) /\
  exists activities,
    dict_get (build_project_map (Projects (run new_workbook sample_trace))) "Work"
    = Some activities /\
    In "Email" activities.
Proof.
  assert (H : In sample_entry (Log (run new_workbook sample_trace)))
    by (left; reflexivity).
  split; [exact H|].
  destruct (reachable_entries_are_defined sample_trace sample_entry H)
    as [p [a [s [e [Hp [Ha [_ [_ [_ [_ Hfound]]]]]]]]]].
  simpl in Hp, Ha. injection Hp as <-. injection Ha as <-. exact Hfound.
Defined.


(** The clock readings of [sample_trace] never go back, and its entry
    ends after it starts. *)
Lemma monotone_clock_keeps_durations_nonnegative_witness :
  nondecreasing T0 sample_trace /\
  In sample_entry (Log (run new_workbook sample_trace)) /\
  exists s e minutes,
    log_Start sample_entry = Time s /\ log_End sample_entry = Time e /\ s <= e /\
    log_DurationMinutes sample_entry = Num minutes /\ (0 <= minutes)%Q.
Proof.
  assert (Hmono : nondecreasing T0 sample_trace)
    by (simpl; repeat split; discriminate).
  assert (H : In sample_entry (Log (run new_workbook sample_trace)))
    by (left; reflexivity).
  split; [exact Hmono|]. split; [exact H|].
  exact (monotone_clock_keeps_durations_nonnegative T0 sample_trace
           sample_entry Hmono H).
Defined.

(** The summary of [sample_log]: two days in one week, month and year, all
    for Work / Email; and of an empty Log, six empty lists. *)
Example summary_of_sample_log :
  option_map (fun s => map snd (daily s)) (build_summary sample_log)
  = Some ["1m 00s"; "01h 15m"] /\
  option_map (fun s => map snd (weekly s)) (build_summary sample_log)
  = Some ["01h 16m"] /\
  option_map (fun s => map snd (monthly s)) (build_summary sample_log)
  = Some ["01h 16m"] /\
  option_map yearly (build_summary sample_log) = Some [("2024", "01h 16m")] /\
  option_map activities (build_summary sample_log)
  = Some [("Work · Email", "01h 16m")] /\
  option_map projects (build_summary sample_log) = Some [("Work", "01h 16m")] /\
  build_summary [] = Some (mkSummary [] [] [] [] [] []).
Proof. repeat split. Qed.
